(** * ADP5055 regulator driver: configuration-to-register translation

    A shallow embedding of [drivers/regulator/adp5055-regulator.c]:
    the register map and field masks, the firmware-property parser
    [adp5055_parse_fw] with its ten register writes, the regulator
    descriptors and the operations bound to them.

    Integers are [Z]; a [u32] is a [Z] in [0, 2^32), a register byte a
    [Z] in [0, 256).  The register bus is an explicit state ([regmap])
    threaded through every access. *)

From stdpp Require Import gmap strings list fin_maps functions.
From Stdlib Require Import ZArith Lia.
Local Open Scope Z_scope.

(** ** Kernel bit helpers: linux/bits.h and linux/bitfield.h

    The driver names its fields with these macros; their definitions
    are not part of the driver file. *)

Module Bitfield.

Definition BITS_PER_LONG : Z := 64.

(** Modelled from the spec: [BIT(n)] names the single bit [n] of a
    register (section 4.5: channel [i] owns bit [i]); it is [1UL << n]. *)
Definition BIT (n : Z) : Z := Z.shiftl 1 n.

(** Modelled from the spec: [GENMASK(h, l)] names the bit range
    [h..l] of a register (section 4.4: "bits 6-4", "bits 2-0"); it is
    [(~0UL << l) & (~0UL >> (BITS_PER_LONG - 1 - h))]. *)
Definition GENMASK (h l : Z) : Z :=
  Z.land (Z.shiftl (Z.ones BITS_PER_LONG) l mod 2 ^ BITS_PER_LONG)
         (Z.shiftr (Z.ones BITS_PER_LONG) (BITS_PER_LONG - 1 - h)).

(** Number of trailing zero bits of a positive number. *)
Fixpoint ctz (p : positive) : Z :=
  match p with
  | xO q => 1 + ctz q
  | _ => 0
  end.

(** Modelled from the spec: the shift of a field is the index of the
    lowest bit of its range; [__bf_shf(mask)] is
    [__builtin_ffsll(mask) - 1], which is [-1] for an empty mask. *)
Definition bf_shf (mask : Z) : Z :=
  match mask with
  | Zpos p => ctz p
  | _ => -1
  end.

(** Modelled from the spec: [FIELD_PREP(mask, val)] puts a value in
    the field of [mask] (section 4.1: shifted to the field, cut to the
    field's bits, silently truncating a value that does not fit); it is
    [((typeof(mask))(val) << __bf_shf(mask)) & (mask)], computed in
    [unsigned long]. *)
Definition FIELD_PREP (mask val : Z) : Z :=
  Z.land (Z.shiftl val (bf_shf mask) mod 2 ^ BITS_PER_LONG) mask.

(** Modelled from the spec: [FIELD_GET(mask, reg)] reads the field of
    [mask] back (section 4.1, the inverse); it is
    [((reg) & (mask)) >> __bf_shf(mask)]. *)
Definition FIELD_GET (mask reg : Z) : Z :=
  Z.shiftr (Z.land reg mask) (bf_shf mask).

End Bitfield.

(** ** Field codec *)

Module FieldCodec.

(** Modelled from the spec: the field codec of section 4.1, which the
    driver spells with the [FIELD_PREP] macro of linux/bitfield.h (not
    part of the driver file).  [pack] masks [value] to [width] bits and
    shifts it left by [shift]; the result is a byte contribution, so it
    is cut to eight bits. *)
Definition pack (value width shift : Z) : Z :=
  Z.land (Z.shiftl (Z.land value (Z.ones width)) shift) 255.

(** Modelled from the spec: [unpack] does the inverse of [pack]: it
    shifts the register byte right by [shift] and keeps [width] bits. *)
Definition unpack (register_byte width shift : Z) : Z :=
  Z.land (Z.shiftr register_byte shift) (Z.ones width).

End FieldCodec.

(** ** Error numbers (uapi/asm-generic/errno.h) *)

Module Errno.
Definition EIO : Z := 5.
Definition EINVAL : Z := 22.
Definition EOVERFLOW : Z := 75.
End Errno.

(** ** The register bus: linux/regmap.h

    The register transport of section 6 of the spec: byte registers
    read and written by address, each access answering with a status.
    The implementation of the regmap functions is not part of the
    driver file. *)

Module Regmap.
Import Errno.

(** One [regmap_read] or [regmap_write] call, with the status it
    returned ([0] on success, a negative errno otherwise). *)
Inductive access : Type :=
| Write (reg val status : Z)
| Read (reg status : Z).

Definition access_reg (e : access) : Z :=
  match e with
  | Write reg _ _ => reg
  | Read reg _ => reg
  end.

Definition access_status (e : access) : Z :=
  match e with
  | Write _ _ status => status
  | Read _ status => status
  end.

Definition is_write (e : access) : bool :=
  match e with
  | Write _ _ _ => true
  | Read _ _ => false
  end.

Record regmap_range : Type := regmap_reg_range {
  range_min : Z;
  range_max : Z
}.

(** [n_yes_ranges] is the length of [yes_ranges]. *)
Record regmap_access_table : Type := {
  yes_ranges : list regmap_range
}.

Record regmap_config : Type := {
  reg_bits : Z;
  val_bits : Z;
  max_register : Z;
  wr_table : regmap_access_table;
  rd_table : regmap_access_table
}.

Definition regmap_reg_in_range (reg : Z) (r : regmap_range) : bool :=
  (range_min r <=? reg) && (reg <=? range_max r).

Definition regmap_reg_in_ranges (reg : Z) (ranges : list regmap_range) : bool :=
  existsb (regmap_reg_in_range reg) ranges.

Definition regmap_check_range_table (table : regmap_access_table) (reg : Z) : bool :=
  regmap_reg_in_ranges reg (yes_ranges table).

(** The state behind a [struct regmap *]: the configuration it was
    created with, the device's registers, the accesses made so far
    (oldest first), and the status the bus gives to the k-th access
    (its transport errors; [0] for a transfer that succeeds). *)
Record regmap : Type := {
  config : regmap_config;
  regs : Z -> Z;
  trace : list access;
  bus_status : nat -> Z
}.

Definition regmap_writeable (m : regmap) (reg : Z) : bool :=
  (reg <=? max_register (config m)) && regmap_check_range_table (wr_table (config m)) reg.

Definition regmap_readable (m : regmap) (reg : Z) : bool :=
  (reg <=? max_register (config m)) && regmap_check_range_table (rd_table (config m)) reg.

(** Computations on the bus: a state monad over [regmap]. *)
Definition bus (A : Type) : Type := regmap -> A * regmap.

Definition ret {A : Type} (x : A) : bus A := fun m => (x, m).

Definition bind {A B : Type} (c : bus A) (k : A -> bus B) : bus B :=
  fun m => let (x, m') := c m in k x m'.

(** [ret = c; if (ret) return ret; k] *)
Definition check (c : bus Z) (k : bus Z) : bus Z :=
  bind c (fun status => if status =? 0 then k else ret status).

Definition log (e : access) (m : regmap) : regmap :=
  {| config := config m; regs := regs m; trace := trace m ++ [e];
     bus_status := bus_status m |}.

Definition store (reg val : Z) (m : regmap) : regmap :=
  {| config := config m; regs := <[reg := val]> (regs m); trace := trace m;
     bus_status := bus_status m |}.

(** Modelled from the spec: the status of the access about to be made.
    Reads and writes are permitted across the register range of the
    access tables; an access outside it is refused with [-EIO], and a
    permitted one gets what the bus answers. *)
Definition next_status (allowed : bool) (m : regmap) : Z :=
  if allowed then bus_status m (length (trace m)) else - EIO.

(** Modelled from the spec: [regmap_write(map, reg, val)] is the
    transport's [write_register(addr, value)], one byte write that
    succeeds or returns the transport's error; the device keeps
    [val_bits] bits of the value. *)
Definition regmap_write (reg val : Z) : bus Z :=
  fun m =>
    let status := next_status (regmap_writeable m reg) m in
    let m' := if status =? 0 then store reg (val mod 2 ^ val_bits (config m)) m else m in
    (status, log (Write reg val status) m').

(** Modelled from the spec: [regmap_read(map, reg, &val)] is the
    transport's [read_register(addr)]: the status and the value read
    ([val] is left as it was when the read fails). *)
Definition regmap_read (reg : Z) (val : Z) : bus (Z * Z) :=
  fun m =>
    let status := next_status (regmap_readable m reg) m in
    ((status, if status =? 0 then regs m reg else val), log (Read reg status) m).

(** Modelled from the spec: [regmap_update_bits] (drivers/base/regmap,
    not part of the driver file) is a read-modify-write: a single read
    followed by a single write of the value with the bits of [mask]
    replaced by those of [val]; the arithmetic is on [unsigned int]. *)
Definition regmap_update_bits (reg mask val : Z) : bus Z :=
  bind (regmap_read reg 0) (fun '(status, orig) =>
    if status =? 0
    then regmap_write reg (Z.lor (Z.land orig (Z.lnot mask mod 2 ^ 32)) (Z.land val mask))
    else ret status).

End Regmap.

Declare Scope bus_scope.
Delimit Scope bus_scope with bus.
Notation "'CHECK' c ;; k" := (Regmap.check c k)
  (at level 10, c at level 99, k at level 200) : bus_scope.

(** ** Firmware properties: linux/property.h *)

Module Property.
Import Errno.

(** The firmware node of a [struct device]: each property name with
    its value as a sequence of [u32] cells (a flag property has none). *)
Abbreviation device := (gmap string (list Z)).

(** Modelled from the spec: [read_bool(name)] of the property source
    ([device_property_read_bool], not part of the driver file) is true
    when the property is present and false when it is absent. *)
Definition device_property_read_bool (dev : device) (propname : string) : bool :=
  match dev !! propname with
  | Some _ => true
  | None => false
  end.

(** Modelled from the spec: [read_array(name, len)] of the property
    source ([device_property_read_u32_array], not part of the driver
    file) gives the [len] values of a present property, nothing for an
    absent one, and an error for one that is present with another
    length.  The result is the status and the contents of the
    destination array [val], which is written on success only. *)
Definition device_property_read_u32_array
    (dev : device) (propname : string) (val : list Z) (nval : nat) : Z * list Z :=
  match dev !! propname with
  | None => (- EINVAL, val)
  | Some cells =>
      if decide (length cells = nval)
      then (0, cells ++ drop nval val)
      else (- EOVERFLOW, val)
  end.

(** Modelled from the spec: [read_scalar(name)]
    ([device_property_read_u32], not part of the driver file) is the
    array read of a single value. *)
Definition device_property_read_u32
    (dev : device) (propname : string) (val : Z) : Z * Z :=
  let (status, out) := device_property_read_u32_array dev propname [val] 1 in
  (status, out !!! 0%nat).

End Property.

(** ** Linear voltage ranges: linux/linear_range.h, regulator/driver.h *)

Module LinearRange.

Record linear_range : Type := {
  min : Z;
  min_sel : Z;
  max_sel : Z;
  step : Z
}.

Definition REGULATOR_LINEAR_RANGE (_min_uV _min_sel _max_sel _step_uV : Z) : linear_range :=
  {| min := _min_uV; min_sel := _min_sel; max_sel := _max_sel; step := _step_uV |}.

Definition linear_range_get_max_value (r : linear_range) : Z :=
  min r + (max_sel r - min_sel r) * step r.

(** [DIV_ROUND_UP(n, d)] is [((n) + (d) - 1) / (d)]. *)
Definition DIV_ROUND_UP (n d : Z) : Z := (n + d - 1) / d.

Inductive voltage_error : Type := OutOfRange.

Inductive result (A : Type) : Type :=
| Ok (x : A)
| Err (e : voltage_error).
Arguments Ok {A} x.
Arguments Err {A} e.

Definition clamp (lo hi x : Z) : Z := Z.min hi (Z.max lo x).

(** Modelled from the spec: [code_to_microvolt(code) = base + code * step]
    on the one linear segment of the device
    ([regulator_list_voltage_linear_range] is not part of the driver
    file); valid for the selector codes of the segment. *)
Definition code_to_microvolt (r : linear_range) (code : Z) : Z :=
  min r + (code - min_sel r) * step r.

(** Modelled from the spec: [microvolt_to_code(voltage)]
    ([regulator_map_voltage_linear_range] is not part of the driver
    file) fails with [OutOfRange] outside the segment's voltages and
    otherwise is [ceil((voltage - base) / step)], clamped to the
    selector codes of the segment. *)
Definition microvolt_to_code (r : linear_range) (voltage : Z) : result Z :=
  if (voltage <? min r) || (linear_range_get_max_value r <? voltage)
  then Err OutOfRange
  else Ok (clamp (min_sel r) (max_sel r)
                 (DIV_ROUND_UP (voltage - min r) (step r) + min_sel r)).

End LinearRange.

(** ** The driver: drivers/regulator/adp5055-regulator.c *)

Module Adp5055.
Import Bitfield Errno Regmap Property LinearRange.
Local Open Scope bus_scope.

(** *** Register map *)

Definition ADP5055_CTRL123 : Z := 0xD1.
Definition ADP5055_CTRL_MODE1 : Z := 0xD3.
Definition ADP5055_CTRL_MODE2 : Z := 0xD4.
Definition ADP5055_DLY0 : Z := 0xD5.
Definition ADP5055_DLY1 : Z := 0xD6.
Definition ADP5055_DLY2 : Z := 0xD7.
Definition ADP5055_VID0 : Z := 0xD8.
Definition ADP5055_VID1 : Z := 0xD9.
Definition ADP5055_VID2 : Z := 0xDA.
Definition ADP5055_DVS_LIM0 : Z := 0xDC.
Definition ADP5055_DVS_LIM1 : Z := 0xDD.
Definition ADP5055_DVS_LIM2 : Z := 0xDE.
Definition ADP5055_FT_CFG : Z := 0xDF.
Definition ADP5055_PG_CFG : Z := 0xE0.

(** *** Field masks *)

Definition ADP5055_MASK_EN0 : Z := BIT 0.
Definition ADP5055_MASK_EN1 : Z := BIT 1.
Definition ADP5055_MASK_EN2 : Z := BIT 2.
Definition ADP5055_MASK_EN_MODE : Z := GENMASK 1 0.
Definition ADP5055_MASK_OCP_BLANKING : Z := BIT 7.
Definition ADP5055_MASK_PSM321 : Z := GENMASK 6 4.
Definition ADP5055_MASK_DIS : Z := GENMASK 2 0.
Definition ADP5055_MASK_DIS_DLY : Z := GENMASK 6 4.
Definition ADP5055_MASK_EN_DLY : Z := GENMASK 2 0.
Definition ADP5055_MASK_DVS_LIM_UPPER : Z := GENMASK 7 4.
Definition ADP5055_MASK_DVS_LIM_LOWER : Z := GENMASK 3 0.
Definition ADP5055_MASK_FAST_TRANSIENT3 : Z := GENMASK 5 4.
Definition ADP5055_MASK_FAST_TRANSIENT2 : Z := GENMASK 3 2.
Definition ADP5055_MASK_FAST_TRANSIENT1 : Z := GENMASK 1 0.
Definition ADP5055_MASK_DLY_PWRGD : Z := BIT 4.
Definition ADP5055_MASK_PWRGD321 : Z := GENMASK 2 0.

Definition ADP5055_MAX_VOUT : Z := 790500.
Definition ADP5055_MIN_VOUT : Z := 408000.

Definition ADP5055_NUM_CH : nat := 3.

(** *** [struct adp5055]

    The [regmap] pointer of the structure is the bus state that the
    functions below thread; the other members are its fields. *)

Record adp5055 : Type := {
  enable_mode_code : Z;
  ocp_blanking : bool;
  power_saving_mode_ch321_code : Z;
  output_discharge_function_ch321_code : Z;
  disable_delay_code_ch123 : list Z;
  enable_delay_code_ch123 : list Z;
  dvs_limit_upper_code_ch123 : list Z;
  dvs_limit_lower_code_ch123 : list Z;
  fast_transient_code_ch123 : list Z;
  delay_power_good : bool;
  mask_power_good_ch321_code : Z
}.

(** Member assignments [adp5055->member = v]. *)

Definition set_enable_mode_code (v : Z) (a : adp5055) : adp5055 :=
  {| enable_mode_code := v;
     ocp_blanking := ocp_blanking a;
     power_saving_mode_ch321_code := power_saving_mode_ch321_code a;
     output_discharge_function_ch321_code := output_discharge_function_ch321_code a;
     disable_delay_code_ch123 := disable_delay_code_ch123 a;
     enable_delay_code_ch123 := enable_delay_code_ch123 a;
     dvs_limit_upper_code_ch123 := dvs_limit_upper_code_ch123 a;
     dvs_limit_lower_code_ch123 := dvs_limit_lower_code_ch123 a;
     fast_transient_code_ch123 := fast_transient_code_ch123 a;
     delay_power_good := delay_power_good a;
     mask_power_good_ch321_code := mask_power_good_ch321_code a |}.

Definition set_ocp_blanking (v : bool) (a : adp5055) : adp5055 :=
  {| enable_mode_code := enable_mode_code a;
     ocp_blanking := v;
     power_saving_mode_ch321_code := power_saving_mode_ch321_code a;
     output_discharge_function_ch321_code := output_discharge_function_ch321_code a;
     disable_delay_code_ch123 := disable_delay_code_ch123 a;
     enable_delay_code_ch123 := enable_delay_code_ch123 a;
     dvs_limit_upper_code_ch123 := dvs_limit_upper_code_ch123 a;
     dvs_limit_lower_code_ch123 := dvs_limit_lower_code_ch123 a;
     fast_transient_code_ch123 := fast_transient_code_ch123 a;
     delay_power_good := delay_power_good a;
     mask_power_good_ch321_code := mask_power_good_ch321_code a |}.

Definition set_power_saving_mode_ch321_code (v : Z) (a : adp5055) : adp5055 :=
  {| enable_mode_code := enable_mode_code a;
     ocp_blanking := ocp_blanking a;
     power_saving_mode_ch321_code := v;
     output_discharge_function_ch321_code := output_discharge_function_ch321_code a;
     disable_delay_code_ch123 := disable_delay_code_ch123 a;
     enable_delay_code_ch123 := enable_delay_code_ch123 a;
     dvs_limit_upper_code_ch123 := dvs_limit_upper_code_ch123 a;
     dvs_limit_lower_code_ch123 := dvs_limit_lower_code_ch123 a;
     fast_transient_code_ch123 := fast_transient_code_ch123 a;
     delay_power_good := delay_power_good a;
     mask_power_good_ch321_code := mask_power_good_ch321_code a |}.

Definition set_output_discharge_function_ch321_code (v : Z) (a : adp5055) : adp5055 :=
  {| enable_mode_code := enable_mode_code a;
     ocp_blanking := ocp_blanking a;
     power_saving_mode_ch321_code := power_saving_mode_ch321_code a;
     output_discharge_function_ch321_code := v;
     disable_delay_code_ch123 := disable_delay_code_ch123 a;
     enable_delay_code_ch123 := enable_delay_code_ch123 a;
     dvs_limit_upper_code_ch123 := dvs_limit_upper_code_ch123 a;
     dvs_limit_lower_code_ch123 := dvs_limit_lower_code_ch123 a;
     fast_transient_code_ch123 := fast_transient_code_ch123 a;
     delay_power_good := delay_power_good a;
     mask_power_good_ch321_code := mask_power_good_ch321_code a |}.

Definition set_disable_delay_code_ch123 (v : list Z) (a : adp5055) : adp5055 :=
  {| enable_mode_code := enable_mode_code a;
     ocp_blanking := ocp_blanking a;
     power_saving_mode_ch321_code := power_saving_mode_ch321_code a;
     output_discharge_function_ch321_code := output_discharge_function_ch321_code a;
     disable_delay_code_ch123 := v;
     enable_delay_code_ch123 := enable_delay_code_ch123 a;
     dvs_limit_upper_code_ch123 := dvs_limit_upper_code_ch123 a;
     dvs_limit_lower_code_ch123 := dvs_limit_lower_code_ch123 a;
     fast_transient_code_ch123 := fast_transient_code_ch123 a;
     delay_power_good := delay_power_good a;
     mask_power_good_ch321_code := mask_power_good_ch321_code a |}.

Definition set_enable_delay_code_ch123 (v : list Z) (a : adp5055) : adp5055 :=
  {| enable_mode_code := enable_mode_code a;
     ocp_blanking := ocp_blanking a;
     power_saving_mode_ch321_code := power_saving_mode_ch321_code a;
     output_discharge_function_ch321_code := output_discharge_function_ch321_code a;
     disable_delay_code_ch123 := disable_delay_code_ch123 a;
     enable_delay_code_ch123 := v;
     dvs_limit_upper_code_ch123 := dvs_limit_upper_code_ch123 a;
     dvs_limit_lower_code_ch123 := dvs_limit_lower_code_ch123 a;
     fast_transient_code_ch123 := fast_transient_code_ch123 a;
     delay_power_good := delay_power_good a;
     mask_power_good_ch321_code := mask_power_good_ch321_code a |}.

Definition set_dvs_limit_upper_code_ch123 (v : list Z) (a : adp5055) : adp5055 :=
  {| enable_mode_code := enable_mode_code a;
     ocp_blanking := ocp_blanking a;
     power_saving_mode_ch321_code := power_saving_mode_ch321_code a;
     output_discharge_function_ch321_code := output_discharge_function_ch321_code a;
     disable_delay_code_ch123 := disable_delay_code_ch123 a;
     enable_delay_code_ch123 := enable_delay_code_ch123 a;
     dvs_limit_upper_code_ch123 := v;
     dvs_limit_lower_code_ch123 := dvs_limit_lower_code_ch123 a;
     fast_transient_code_ch123 := fast_transient_code_ch123 a;
     delay_power_good := delay_power_good a;
     mask_power_good_ch321_code := mask_power_good_ch321_code a |}.

Definition set_dvs_limit_lower_code_ch123 (v : list Z) (a : adp5055) : adp5055 :=
  {| enable_mode_code := enable_mode_code a;
     ocp_blanking := ocp_blanking a;
     power_saving_mode_ch321_code := power_saving_mode_ch321_code a;
     output_discharge_function_ch321_code := output_discharge_function_ch321_code a;
     disable_delay_code_ch123 := disable_delay_code_ch123 a;
     enable_delay_code_ch123 := enable_delay_code_ch123 a;
     dvs_limit_upper_code_ch123 := dvs_limit_upper_code_ch123 a;
     dvs_limit_lower_code_ch123 := v;
     fast_transient_code_ch123 := fast_transient_code_ch123 a;
     delay_power_good := delay_power_good a;
     mask_power_good_ch321_code := mask_power_good_ch321_code a |}.

Definition set_fast_transient_code_ch123 (v : list Z) (a : adp5055) : adp5055 :=
  {| enable_mode_code := enable_mode_code a;
     ocp_blanking := ocp_blanking a;
     power_saving_mode_ch321_code := power_saving_mode_ch321_code a;
     output_discharge_function_ch321_code := output_discharge_function_ch321_code a;
     disable_delay_code_ch123 := disable_delay_code_ch123 a;
     enable_delay_code_ch123 := enable_delay_code_ch123 a;
     dvs_limit_upper_code_ch123 := dvs_limit_upper_code_ch123 a;
     dvs_limit_lower_code_ch123 := dvs_limit_lower_code_ch123 a;
     fast_transient_code_ch123 := v;
     delay_power_good := delay_power_good a;
     mask_power_good_ch321_code := mask_power_good_ch321_code a |}.

Definition set_delay_power_good (v : bool) (a : adp5055) : adp5055 :=
  {| enable_mode_code := enable_mode_code a;
     ocp_blanking := ocp_blanking a;
     power_saving_mode_ch321_code := power_saving_mode_ch321_code a;
     output_discharge_function_ch321_code := output_discharge_function_ch321_code a;
     disable_delay_code_ch123 := disable_delay_code_ch123 a;
     enable_delay_code_ch123 := enable_delay_code_ch123 a;
     dvs_limit_upper_code_ch123 := dvs_limit_upper_code_ch123 a;
     dvs_limit_lower_code_ch123 := dvs_limit_lower_code_ch123 a;
     fast_transient_code_ch123 := fast_transient_code_ch123 a;
     delay_power_good := v;
     mask_power_good_ch321_code := mask_power_good_ch321_code a |}.

Definition set_mask_power_good_ch321_code (v : Z) (a : adp5055) : adp5055 :=
  {| enable_mode_code := enable_mode_code a;
     ocp_blanking := ocp_blanking a;
     power_saving_mode_ch321_code := power_saving_mode_ch321_code a;
     output_discharge_function_ch321_code := output_discharge_function_ch321_code a;
     disable_delay_code_ch123 := disable_delay_code_ch123 a;
     enable_delay_code_ch123 := enable_delay_code_ch123 a;
     dvs_limit_upper_code_ch123 := dvs_limit_upper_code_ch123 a;
     dvs_limit_lower_code_ch123 := dvs_limit_lower_code_ch123 a;
     fast_transient_code_ch123 := fast_transient_code_ch123 a;
     delay_power_good := delay_power_good a;
     mask_power_good_ch321_code := v |}.

(** What [devm_kzalloc] hands to [adp5055_probe]: every member zero. *)
Definition adp5055_kzalloc : adp5055 :=
  {| enable_mode_code := 0;
     ocp_blanking := false;
     power_saving_mode_ch321_code := 0;
     output_discharge_function_ch321_code := 0;
     disable_delay_code_ch123 := replicate ADP5055_NUM_CH 0;
     enable_delay_code_ch123 := replicate ADP5055_NUM_CH 0;
     dvs_limit_upper_code_ch123 := replicate ADP5055_NUM_CH 0;
     dvs_limit_lower_code_ch123 := replicate ADP5055_NUM_CH 0;
     fast_transient_code_ch123 := replicate ADP5055_NUM_CH 0;
     delay_power_good := false;
     mask_power_good_ch321_code := 0 |}.

(** *** Register access tables and configuration *)

Definition adp5055_reg_ranges : list regmap_range :=
  [regmap_reg_range 0xD1 0xE0].

Definition adp5055_write_ranges_table : regmap_access_table :=
  {| yes_ranges := adp5055_reg_ranges |}.

Definition adp5055_read_ranges_table : regmap_access_table :=
  {| yes_ranges := adp5055_reg_ranges |}.

Definition adp5055_regmap_config : regmap_config :=
  {| reg_bits := 8;
     val_bits := 8;
     max_register := 0xFF;
     wr_table := adp5055_write_ranges_table;
     rd_table := adp5055_read_ranges_table |}.

Definition adp5055_voltage_ranges : list linear_range :=
  [REGULATOR_LINEAR_RANGE 408000 0 255 1500].

(** *** [adp5055_parse_fw] *)

(** Lines 107-119: every member is given its default. *)
Definition parse_fw_defaults (a : adp5055) : adp5055 :=
  let a := set_enable_mode_code 0 a in
  let a := set_ocp_blanking false a in
  let a := set_power_saving_mode_ch321_code 0 a in
  let a := set_output_discharge_function_ch321_code 7 a in
  let a :=
    foldl (fun a i =>
             let a := set_disable_delay_code_ch123 (<[i := 0]> (disable_delay_code_ch123 a)) a in
             let a := set_enable_delay_code_ch123 (<[i := 0]> (enable_delay_code_ch123 a)) a in
             let a := set_dvs_limit_upper_code_ch123 (<[i := 0]> (dvs_limit_upper_code_ch123 a)) a in
             let a := set_dvs_limit_lower_code_ch123 (<[i := 0]> (dvs_limit_lower_code_ch123 a)) a in
             set_fast_transient_code_ch123 (<[i := 3]> (fast_transient_code_ch123 a)) a)
          a (seq 0 ADP5055_NUM_CH) in
  let a := set_delay_power_good true a in
  set_mask_power_good_ch321_code 0 a.

(** Lines 121-141: the properties are read over the defaults.  The
    status of [device_property_read_u32] and of
    [device_property_read_u32_array] is not looked at; the two flags are
    assigned what [device_property_read_bool] returns. *)
Definition parse_fw_properties (dev : device) (a : adp5055) : adp5055 :=
  let a := set_enable_mode_code
             (snd (device_property_read_u32 dev "adi,enable-mode-code"
                     (enable_mode_code a))) a in
  let a := set_ocp_blanking (device_property_read_bool dev "adi,ocp-blanking") a in
  let a := set_power_saving_mode_ch321_code
             (snd (device_property_read_u32 dev "adi,power-saving-mode-ch321-code"
                     (power_saving_mode_ch321_code a))) a in
  let a := set_output_discharge_function_ch321_code
             (snd (device_property_read_u32 dev "adi,output-discharge-function-ch321-code"
                     (output_discharge_function_ch321_code a))) a in
  let a := set_disable_delay_code_ch123
             (snd (device_property_read_u32_array dev "adi,disable-delay-code-ch123"
                     (disable_delay_code_ch123 a) ADP5055_NUM_CH)) a in
  let a := set_enable_delay_code_ch123
             (snd (device_property_read_u32_array dev "adi,enable-delay-code-ch123"
                     (enable_delay_code_ch123 a) ADP5055_NUM_CH)) a in
  let a := set_dvs_limit_upper_code_ch123
             (snd (device_property_read_u32_array dev "adi,dvs-limit-upper-code-ch123"
                     (dvs_limit_upper_code_ch123 a) ADP5055_NUM_CH)) a in
  let a := set_dvs_limit_lower_code_ch123
             (snd (device_property_read_u32_array dev "adi,dvs-limit-lower-code-ch123"
                     (dvs_limit_lower_code_ch123 a) ADP5055_NUM_CH)) a in
  let a := set_fast_transient_code_ch123
             (snd (device_property_read_u32_array dev "adi,fast-transient-code-ch123"
                     (fast_transient_code_ch123 a) ADP5055_NUM_CH)) a in
  let a := set_delay_power_good (device_property_read_bool dev "adi,delay-power-good") a in
  set_mask_power_good_ch321_code
    (snd (device_property_read_u32 dev "adi,mask-power-good-ch321-code"
            (mask_power_good_ch321_code a))) a.

(** Lines 143-214: the ten register writes, each followed by
    [if (ret) return ret;]. *)
Definition parse_fw_writes (a : adp5055) : bus Z :=
  let val1 := FIELD_PREP ADP5055_MASK_EN_MODE (enable_mode_code a) in
  CHECK regmap_write ADP5055_CTRL_MODE1 val1 ;;

  let val1 := FIELD_PREP ADP5055_MASK_OCP_BLANKING (Z.b2z (ocp_blanking a)) in
  let val2 := FIELD_PREP ADP5055_MASK_PSM321 (power_saving_mode_ch321_code a) in
  let val3 := FIELD_PREP ADP5055_MASK_DIS (output_discharge_function_ch321_code a) in
  CHECK regmap_write ADP5055_CTRL_MODE2 (Z.lor (Z.lor val1 val2) val3) ;;

  let val1 := FIELD_PREP ADP5055_MASK_DIS_DLY (disable_delay_code_ch123 a !!! 0%nat) in
  let val2 := FIELD_PREP ADP5055_MASK_EN_DLY (enable_delay_code_ch123 a !!! 0%nat) in
  CHECK regmap_write ADP5055_DLY0 (Z.lor val1 val2) ;;

  let val1 := FIELD_PREP ADP5055_MASK_DIS_DLY (disable_delay_code_ch123 a !!! 1%nat) in
  let val2 := FIELD_PREP ADP5055_MASK_EN_DLY (enable_delay_code_ch123 a !!! 1%nat) in
  CHECK regmap_write ADP5055_DLY1 (Z.lor val1 val2) ;;

  let val1 := FIELD_PREP ADP5055_MASK_DIS_DLY (disable_delay_code_ch123 a !!! 2%nat) in
  let val2 := FIELD_PREP ADP5055_MASK_EN_DLY (enable_delay_code_ch123 a !!! 2%nat) in
  CHECK regmap_write ADP5055_DLY2 (Z.lor val1 val2) ;;

  let val1 := FIELD_PREP ADP5055_MASK_DVS_LIM_UPPER (dvs_limit_upper_code_ch123 a !!! 0%nat) in
  let val2 := FIELD_PREP ADP5055_MASK_DVS_LIM_LOWER (dvs_limit_lower_code_ch123 a !!! 0%nat) in
  CHECK regmap_write ADP5055_DVS_LIM0 (Z.lor val1 val2) ;;

  let val1 := FIELD_PREP ADP5055_MASK_DVS_LIM_UPPER (dvs_limit_upper_code_ch123 a !!! 1%nat) in
  let val2 := FIELD_PREP ADP5055_MASK_DVS_LIM_LOWER (dvs_limit_lower_code_ch123 a !!! 1%nat) in
  CHECK regmap_write ADP5055_DVS_LIM1 (Z.lor val1 val2) ;;

  let val1 := FIELD_PREP ADP5055_MASK_DVS_LIM_UPPER (dvs_limit_upper_code_ch123 a !!! 2%nat) in
  let val2 := FIELD_PREP ADP5055_MASK_DVS_LIM_LOWER (dvs_limit_lower_code_ch123 a !!! 2%nat) in
  CHECK regmap_write ADP5055_DVS_LIM2 (Z.lor val1 val2) ;;

  let val1 := FIELD_PREP ADP5055_MASK_FAST_TRANSIENT1 (fast_transient_code_ch123 a !!! 0%nat) in
  let val2 := FIELD_PREP ADP5055_MASK_FAST_TRANSIENT2 (fast_transient_code_ch123 a !!! 1%nat) in
  let val3 := FIELD_PREP ADP5055_MASK_FAST_TRANSIENT3 (fast_transient_code_ch123 a !!! 2%nat) in
  CHECK regmap_write ADP5055_FT_CFG (Z.lor (Z.lor val1 val2) val3) ;;

  let val1 := FIELD_PREP ADP5055_MASK_DLY_PWRGD (Z.b2z (delay_power_good a)) in
  let val2 := FIELD_PREP ADP5055_MASK_PWRGD321 (mask_power_good_ch321_code a) in
  CHECK regmap_write ADP5055_PG_CFG (Z.lor val1 val2) ;;

  ret 0.

(** The whole function: its return value and the structure it leaves
    behind its [adp5055] argument. *)
Definition adp5055_parse_fw (dev : device) (a : adp5055) : bus (Z * adp5055) :=
  let a := parse_fw_properties dev (parse_fw_defaults a) in
  bind (parse_fw_writes a) (fun status => ret (status, a)).

(** *** Regulator descriptors *)

Record regulator_desc : Type := {
  name : string;
  linear_ranges : list linear_range;
  vsel_reg : Z;
  vsel_mask : Z;
  enable_reg : Z;
  enable_mask : Z
}.

(** The [_id] argument of [ADP5055_REG_]: the tokens [0], [1], [2]. *)
Inductive regulator_id : Type := ID0 | ID1 | ID2.

(** [ADP5055_VID##_id] *)
Definition ADP5055_VID (_id : regulator_id) : Z :=
  match _id with
  | ID0 => ADP5055_VID0
  | ID1 => ADP5055_VID1
  | ID2 => ADP5055_VID2
  end.

(** [ADP5055_MASK_EN##_id] *)
Definition ADP5055_MASK_EN (_id : regulator_id) : Z :=
  match _id with
  | ID0 => ADP5055_MASK_EN0
  | ID1 => ADP5055_MASK_EN1
  | ID2 => ADP5055_MASK_EN2
  end.

Definition ADP5055_REG (_name : string) (_id : regulator_id) : regulator_desc :=
  {| name := _name;
     linear_ranges := adp5055_voltage_ranges;
     vsel_reg := ADP5055_VID _id;
     vsel_mask := GENMASK 7 0;
     enable_reg := ADP5055_CTRL123;
     enable_mask := ADP5055_MASK_EN _id |}.

Definition adp5055_regulators : list regulator_desc :=
  [ADP5055_REG "DCDC1" ID0; ADP5055_REG "DCDC2" ID1; ADP5055_REG "DCDC3" ID2].

(** *** Regulator operations: drivers/regulator/helpers.c *)

(** Modelled from the spec: [list_voltage(code)]
    ([regulator_list_voltage_linear_range], not part of the driver file)
    is [code_to_microvolt] on the descriptor's one linear segment. *)
Definition regulator_list_voltage_linear_range (desc : regulator_desc) (selector : Z) : Z :=
  match linear_ranges desc with
  | [r] => code_to_microvolt r selector
  | _ => - EINVAL
  end.

(** Modelled from the spec: [map_voltage(target_uV)]
    ([regulator_map_voltage_linear_range], not part of the driver file)
    is [microvolt_to_code] on the descriptor's one linear segment. *)
Definition regulator_map_voltage_linear_range (desc : regulator_desc) (target_uV : Z) : result Z :=
  match linear_ranges desc with
  | [r] => microvolt_to_code r target_uV
  | _ => Err OutOfRange
  end.

(** Modelled from the spec: [set_voltage_sel(code)]
    ([regulator_set_voltage_sel_regmap], not part of the driver file)
    puts the code in the selector field of the channel's register. *)
Definition regulator_set_voltage_sel_regmap (desc : regulator_desc) (sel : Z) : bus Z :=
  regmap_update_bits (vsel_reg desc) (vsel_mask desc)
                     (Z.shiftl sel (bf_shf (vsel_mask desc))).

(** The selector code held by a register value. *)
Definition vsel_of (desc : regulator_desc) (val : Z) : Z :=
  Z.shiftr (Z.land val (vsel_mask desc)) (bf_shf (vsel_mask desc)).

(** Modelled from the spec: [get_voltage_sel()]
    ([regulator_get_voltage_sel_regmap], not part of the driver file)
    reads the channel's selector register; the result is the code, or
    the status of a read that failed. *)
Definition regulator_get_voltage_sel_regmap (desc : regulator_desc) : bus Z :=
  bind (regmap_read (vsel_reg desc) 0) (fun '(status, val) =>
    ret (if status =? 0 then vsel_of desc val else status)).

(** Modelled from the spec: [enable(channel)] ([regulator_enable_regmap],
    not part of the driver file): set the channel's bit of the shared
    enable register, read-modify-write. *)
Definition regulator_enable_regmap (desc : regulator_desc) : bus Z :=
  regmap_update_bits (enable_reg desc) (enable_mask desc) (enable_mask desc).

(** Modelled from the spec: [disable(channel)]
    ([regulator_disable_regmap], not part of the driver file): clear the
    channel's bit, read-modify-write. *)
Definition regulator_disable_regmap (desc : regulator_desc) : bus Z :=
  regmap_update_bits (enable_reg desc) (enable_mask desc) 0.

(** Whether a value of the enable register has the channel's bit set. *)
Definition enabled_of (desc : regulator_desc) (val : Z) : bool :=
  negb (Z.land val (enable_mask desc) =? 0).

(** Modelled from the spec: [is_enabled(channel)]
    ([regulator_is_enabled_regmap], not part of the driver file): read
    the register, test the bit; the result is [1] or [0], or the status
    of a read that failed. *)
Definition regulator_is_enabled_regmap (desc : regulator_desc) : bus Z :=
  bind (regmap_read (enable_reg desc) 0) (fun '(status, val) =>
    ret (if status =? 0 then Z.b2z (enabled_of desc val) else status)).

Record regulator_ops : Type := {
  list_voltage : regulator_desc -> Z -> Z;
  map_voltage : regulator_desc -> Z -> result Z;
  set_voltage_sel : regulator_desc -> Z -> bus Z;
  get_voltage_sel : regulator_desc -> bus Z;
  enable : regulator_desc -> bus Z;
  disable : regulator_desc -> bus Z;
  is_enabled : regulator_desc -> bus Z
}.

Definition adp5055_ops : regulator_ops :=
  {| list_voltage := regulator_list_voltage_linear_range;
     map_voltage := regulator_map_voltage_linear_range;
     set_voltage_sel := regulator_set_voltage_sel_regmap;
     get_voltage_sel := regulator_get_voltage_sel_regmap;
     enable := regulator_enable_regmap;
     disable := regulator_disable_regmap;
     is_enabled := regulator_is_enabled_regmap |}.

(** *** Vocabulary of the statements *)

(** The register map that [adp5055_probe] creates with
    [devm_regmap_init_i2c(client, &adp5055_regmap_config)]: it carries
    the driver's configuration and the device's registers hold bytes. *)
Definition adp5055_regmap (m : regmap) : Prop :=
  config m = adp5055_regmap_config /\ forall reg, 0 <= regs m reg < 256.

(** The next [n] accesses meet no transport error. *)
Definition bus_ok (n : nat) (m : regmap) : Prop :=
  forall k, (k < n)%nat -> bus_status m (length (trace m) + k) = 0.

(** Whatever the state of the bus, the computation only adds accesses
    that satisfy [P] to the trace. *)
Definition only_accesses {A : Type} (P : access -> Prop) (c : bus A) : Prop :=
  forall m, exists evs, trace (snd (c m)) = trace m ++ evs /\ Forall P evs.

(** The address lies in the device's register range. *)
Definition in_device_range (reg : Z) : Prop :=
  0xD1 <= reg <= 0xE0 /\
  regmap_check_range_table adp5055_write_ranges_table reg = true /\
  regmap_check_range_table adp5055_read_ranges_table reg = true.

(** The array properties of lines 128-137, the member each one is read
    into and the default that member is given on lines 111-117. *)
Inductive array_property : Type :=
  DisableDelay | EnableDelay | DvsLimitUpper | DvsLimitLower | FastTransient.

Definition array_property_name (p : array_property) : string :=
  match p with
  | DisableDelay => "adi,disable-delay-code-ch123"
  | EnableDelay => "adi,enable-delay-code-ch123"
  | DvsLimitUpper => "adi,dvs-limit-upper-code-ch123"
  | DvsLimitLower => "adi,dvs-limit-lower-code-ch123"
  | FastTransient => "adi,fast-transient-code-ch123"
  end.

Definition array_property_member (p : array_property) : adp5055 -> list Z :=
  match p with
  | DisableDelay => disable_delay_code_ch123
  | EnableDelay => enable_delay_code_ch123
  | DvsLimitUpper => dvs_limit_upper_code_ch123
  | DvsLimitLower => dvs_limit_lower_code_ch123
  | FastTransient => fast_transient_code_ch123
  end.

Definition array_property_default (p : array_property) : list Z :=
  match p with
  | FastTransient => [3; 3; 3]
  | _ => [0; 0; 0]
  end.

(** The registers and values [parse_fw_writes] hands to [regmap_write],
    in program order. *)
Definition register_writes (a : adp5055) : list (Z * Z) :=
  [ (ADP5055_CTRL_MODE1, FIELD_PREP ADP5055_MASK_EN_MODE (enable_mode_code a));
    (ADP5055_CTRL_MODE2,
      Z.lor (Z.lor (FIELD_PREP ADP5055_MASK_OCP_BLANKING (Z.b2z (ocp_blanking a)))
                   (FIELD_PREP ADP5055_MASK_PSM321 (power_saving_mode_ch321_code a)))
            (FIELD_PREP ADP5055_MASK_DIS (output_discharge_function_ch321_code a)));
    (ADP5055_DLY0,
      Z.lor (FIELD_PREP ADP5055_MASK_DIS_DLY (disable_delay_code_ch123 a !!! 0%nat))
            (FIELD_PREP ADP5055_MASK_EN_DLY (enable_delay_code_ch123 a !!! 0%nat)));
    (ADP5055_DLY1,
      Z.lor (FIELD_PREP ADP5055_MASK_DIS_DLY (disable_delay_code_ch123 a !!! 1%nat))
            (FIELD_PREP ADP5055_MASK_EN_DLY (enable_delay_code_ch123 a !!! 1%nat)));
    (ADP5055_DLY2,
      Z.lor (FIELD_PREP ADP5055_MASK_DIS_DLY (disable_delay_code_ch123 a !!! 2%nat))
            (FIELD_PREP ADP5055_MASK_EN_DLY (enable_delay_code_ch123 a !!! 2%nat)));
    (ADP5055_DVS_LIM0,
      Z.lor (FIELD_PREP ADP5055_MASK_DVS_LIM_UPPER (dvs_limit_upper_code_ch123 a !!! 0%nat))
            (FIELD_PREP ADP5055_MASK_DVS_LIM_LOWER (dvs_limit_lower_code_ch123 a !!! 0%nat)));
    (ADP5055_DVS_LIM1,
      Z.lor (FIELD_PREP ADP5055_MASK_DVS_LIM_UPPER (dvs_limit_upper_code_ch123 a !!! 1%nat))
            (FIELD_PREP ADP5055_MASK_DVS_LIM_LOWER (dvs_limit_lower_code_ch123 a !!! 1%nat)));
    (ADP5055_DVS_LIM2,
      Z.lor (FIELD_PREP ADP5055_MASK_DVS_LIM_UPPER (dvs_limit_upper_code_ch123 a !!! 2%nat))
            (FIELD_PREP ADP5055_MASK_DVS_LIM_LOWER (dvs_limit_lower_code_ch123 a !!! 2%nat)));
    (ADP5055_FT_CFG,
      Z.lor (Z.lor (FIELD_PREP ADP5055_MASK_FAST_TRANSIENT1 (fast_transient_code_ch123 a !!! 0%nat))
                   (FIELD_PREP ADP5055_MASK_FAST_TRANSIENT2 (fast_transient_code_ch123 a !!! 1%nat)))
            (FIELD_PREP ADP5055_MASK_FAST_TRANSIENT3 (fast_transient_code_ch123 a !!! 2%nat)));
    (ADP5055_PG_CFG,
      Z.lor (FIELD_PREP ADP5055_MASK_DLY_PWRGD (Z.b2z (delay_power_good a)))
            (FIELD_PREP ADP5055_MASK_PWRGD321 (mask_power_good_ch321_code a))) ].

(** Writing a list of registers one after the other, stopping at the
    first status that is not zero. *)
Fixpoint regmap_write_each (ws : list (Z * Z)) : bus Z :=
  match ws with
  | [] => ret 0
  | (reg, val) :: ws' => CHECK regmap_write reg val ;; regmap_write_each ws'
  end.

(** What the device's registers hold after a list of writes went through. *)
Definition stored (ws : list (Z * Z)) (f : Z -> Z) : Z -> Z :=
  foldl (fun f '(reg, val) => <[reg := val mod 2 ^ 8]> f) f ws.

(** The trace entry of a write that went through. *)
Definition written (w : Z * Z) : access := Write (fst w) (snd w) 0.

(** The five array members of the structure hold [ADP5055_NUM_CH] codes. *)
Definition sized (a : adp5055) : Prop :=
  length (disable_delay_code_ch123 a) = ADP5055_NUM_CH /\
  length (enable_delay_code_ch123 a) = ADP5055_NUM_CH /\
  length (dvs_limit_upper_code_ch123 a) = ADP5055_NUM_CH /\
  length (dvs_limit_lower_code_ch123 a) = ADP5055_NUM_CH /\
  length (fast_transient_code_ch123 a) = ADP5055_NUM_CH.

(** *** Sample inputs *)

(** A device whose registers are all zero, behind a bus that never fails. *)
Definition idle_regmap : regmap :=
  {| config := adp5055_regmap_config; regs := fun _ => 0; trace := [];
     bus_status := fun _ => 0 |}.

(** The same device behind a bus whose access number [n] (counted from
    one) fails with the status [e]. *)
Definition faulty_regmap (n : nat) (e : Z) : regmap :=
  {| config := adp5055_regmap_config; regs := fun _ => 0; trace := [];
     bus_status := fun k => if (S k =? n)%nat then e else 0 |}.

(** A structure with a code in every member. *)
Definition sample_config : adp5055 :=
  {| enable_mode_code := 2;
     ocp_blanking := true;
     power_saving_mode_ch321_code := 5;
     output_discharge_function_ch321_code := 3;
     disable_delay_code_ch123 := [1; 2; 3];
     enable_delay_code_ch123 := [4; 5; 6];
     dvs_limit_upper_code_ch123 := [7; 8; 9];
     dvs_limit_lower_code_ch123 := [10; 11; 12];
     fast_transient_code_ch123 := [1; 2; 3];
     delay_power_good := true;
     mask_power_good_ch321_code := 5 |}.

(** A device with the channels 0 and 2 enabled (CTRL123 = 0x05), behind
    a bus that never fails. *)
Definition running_regmap : regmap :=
  {| config := adp5055_regmap_config;
     regs := fun reg => if reg =? ADP5055_CTRL123 then 0x05 else 0;
     trace := [];
     bus_status := fun _ => 0 |}.

(** A firmware node whose disable-delay array has two cells, not three. *)
Definition short_array_device : device :=
  {[ "adi,disable-delay-code-ch123" := [1; 2] ]}.

End Adp5055.

(** ** The probe function and further vocabulary *)

Module Adp5055Probe.
Import Bitfield Errno Regmap Property LinearRange Adp5055.

Definition ENOMEM : Z := 12.

(** The result of a kernel call that returns a pointer: a valid
    pointer, or [ERR_PTR(e)], for which [IS_ERR] holds and [PTR_ERR]
    is [e]. *)
Inductive ptr (A : Type) : Type :=
| Ptr (x : A)
| ERR_PTR (e : Z).
Arguments Ptr {A} x.
Arguments ERR_PTR {A} e.

(** What [adp5055_probe] gets from its [struct i2c_client] and from the
    kernel services it calls, none of which is part of the driver file:
    the firmware node of [client->dev]; whether
    [of_get_regulator_init_data] and [devm_kzalloc] return a pointer
    that is not NULL; the register map or error that
    [devm_regmap_init_i2c] returns for a configuration; and the outcome
    of [devm_regulator_register] for a descriptor. *)
Record i2c_client : Type := {
  of_node : device;
  of_get_regulator_init_data : bool;
  devm_kzalloc : bool;
  devm_regmap_init_i2c : regmap_config -> ptr regmap;
  devm_regulator_register : regulator_desc -> ptr unit
}.

(** What a call of [adp5055_probe] leaves behind: its return value, the
    register map if one was created (with the accesses made), the
    descriptors handed to [devm_regulator_register] in call order, and
    the driver data set with [i2c_set_clientdata]. *)
Record probe_result : Type := {
  probe_ret : Z;
  probe_regmap : option regmap;
  register_calls : list regulator_desc;
  clientdata : option adp5055
}.

(** Lines 285-300: the registration loop over the descriptors; [Some e]
    when a registration failed and the function returns [e], [None]
    when the loop ran to its end. *)
Fixpoint register_loop (client : i2c_client) (descs : list regulator_desc)
  : option Z * list regulator_desc :=
  match descs with
  | [] => (None, [])
  | desc :: rest =>
      match devm_regulator_register client desc with
      | ERR_PTR e => (Some e, [desc])
      | Ptr _ =>
          let (status, calls) := register_loop client rest in
          (status, desc :: calls)
      end
  end.

(** Lines 255-305. *)
Definition adp5055_probe (client : i2c_client) : probe_result :=
  if negb (of_get_regulator_init_data client)
  then {| probe_ret := - EINVAL; probe_regmap := None;
          register_calls := []; clientdata := None |}
  else if negb (devm_kzalloc client)
  then {| probe_ret := - ENOMEM; probe_regmap := None;
          register_calls := []; clientdata := None |}
  else
    match devm_regmap_init_i2c client adp5055_regmap_config with
    | ERR_PTR e =>
        {| probe_ret := e; probe_regmap := None;
           register_calls := []; clientdata := None |}
    | Ptr m =>
        let '((status, a), m') := adp5055_parse_fw (of_node client) adp5055_kzalloc m in
        if status <? 0
        then {| probe_ret := status; probe_regmap := Some m';
                register_calls := []; clientdata := None |}
        else
          match register_loop client (take ADP5055_NUM_CH adp5055_regulators) with
          | (Some e, calls) =>
              {| probe_ret := e; probe_regmap := Some m';
                 register_calls := calls; clientdata := None |}
          | (None, calls) =>
              {| probe_ret := 0; probe_regmap := Some m';
                 register_calls := calls; clientdata := Some a |}
          end
    end.

(** *** Vocabulary of the statements *)

(** The property names that [adp5055_parse_fw] reads (lines 121-141). *)
Definition adp5055_property_names : list string :=
  [ "adi,enable-mode-code"; "adi,ocp-blanking"; "adi,power-saving-mode-ch321-code";
    "adi,output-discharge-function-ch321-code"; "adi,disable-delay-code-ch123";
    "adi,enable-delay-code-ch123"; "adi,dvs-limit-upper-code-ch123";
    "adi,dvs-limit-lower-code-ch123"; "adi,fast-transient-code-ch123";
    "adi,delay-power-good"; "adi,mask-power-good-ch321-code" ].

(** A flag property: present, without cells, when the flag is set. *)
Definition flag_property (name : string) (b : bool) (dev : device) : device :=
  if b then <[name := []]> dev else dev.

(** The firmware node that spells a structure out: every code under its
    property name, the two flags present when they are set. *)
Definition firmware_of (a : adp5055) : device :=
  flag_property "adi,ocp-blanking" (ocp_blanking a)
    (flag_property "adi,delay-power-good" (delay_power_good a)
       (<["adi,enable-mode-code" := [enable_mode_code a]]>
        (<["adi,power-saving-mode-ch321-code" := [power_saving_mode_ch321_code a]]>
         (<["adi,output-discharge-function-ch321-code" :=
              [output_discharge_function_ch321_code a]]>
          (<["adi,disable-delay-code-ch123" := disable_delay_code_ch123 a]>
           (<["adi,enable-delay-code-ch123" := enable_delay_code_ch123 a]>
            (<["adi,dvs-limit-upper-code-ch123" := dvs_limit_upper_code_ch123 a]>
             (<["adi,dvs-limit-lower-code-ch123" := dvs_limit_lower_code_ch123 a]>
              (<["adi,fast-transient-code-ch123" := fast_transient_code_ch123 a]>
               (<["adi,mask-power-good-ch321-code" := [mask_power_good_ch321_code a]]>
                ∅)))))))))).

(** *** Sample inputs *)

(** A client for which every kernel service succeeds, on the register
    map [m] and the firmware node [dev]. *)
Definition working_client (dev : device) (m : regmap) : i2c_client :=
  {| of_node := dev;
     of_get_regulator_init_data := true;
     devm_kzalloc := true;
     devm_regmap_init_i2c := fun _ => Ptr m;
     devm_regulator_register := fun _ => Ptr tt |}.

(** The same client, except that the registration of the regulator
    called [failing] fails with [e]. *)
Definition client_rejecting (failing : string) (e : Z) (dev : device) (m : regmap)
  : i2c_client :=
  {| of_node := dev;
     of_get_regulator_init_data := true;
     devm_kzalloc := true;
     devm_regmap_init_i2c := fun _ => Ptr m;
     devm_regulator_register :=
       fun desc => if String.eqb (name desc) failing then ERR_PTR e else Ptr tt |}.

(** A device whose selector register of channel 1 holds 0x40 and whose
    enable register holds 0x07, behind a bus that never fails. *)
Definition selected_regmap : regmap :=
  {| config := adp5055_regmap_config;
     regs := fun reg => if reg =? ADP5055_VID1 then 0x40
                        else if reg =? ADP5055_CTRL123 then 0x07 else 0;
     trace := [];
     bus_status := fun _ => 0 |}.

End Adp5055Probe.

(** * Properties *)

(** ** Bit-level facts about the field macros *)

Module BitfieldFacts.
Import Bitfield FieldCodec.

Ltac compare_all :=
  repeat match goal with
         | |- context [(?x <=? ?y)] => destruct (Z.leb_spec x y)
         | |- context [(?x <? ?y)] => destruct (Z.ltb_spec x y)
         end.

Lemma testbit_field_mask (w s n : Z) :
  0 <= w -> 0 <= s -> 0 <= n ->
  Z.testbit (Z.shiftl (Z.ones w) s) n = (s <=? n) && (n <? s + w).
Proof.
  intros Hw Hs Hn. rewrite Z.shiftl_spec by lia.
  rewrite Z.testbit_ones by lia.
  compare_all; simpl; lia || reflexivity.
Qed.

Lemma testbit_above (v w n : Z) :
  0 <= v < 2 ^ w -> w <= n -> Z.testbit v n = false.
Proof.
  intros Hv Hn.
  assert (0 <= w) by (destruct (Z.le_gt_cases 0 w); [lia|]; rewrite Z.pow_neg_r in Hv; lia).
  rewrite <- (Z.mod_small v (2 ^ w)) by lia.
  apply Z.mod_pow2_bits_high. lia.
Qed.

(** On a contiguous mask, [FIELD_PREP] is the codec's [pack]. *)
Lemma FIELD_PREP_pack (mask w s v : Z) :
  0 <= w -> 0 <= s -> s + w <= 8 ->
  mask = Z.shiftl (Z.ones w) s -> bf_shf mask = s ->
  FIELD_PREP mask v = pack v w s.
Proof.
  intros Hw Hs Hfit Hmask Hshf. unfold FIELD_PREP, pack. rewrite Hshf, Hmask.
  apply Z.bits_inj'. intros n Hn.
  rewrite !Z.land_spec, testbit_field_mask by lia.
  rewrite Z.testbit_mod_pow2 by (unfold BITS_PER_LONG; lia).
  change 255 with (Z.ones 8). rewrite (Z.testbit_ones 8) by lia.
  destruct (Z.le_gt_cases s n) as [Hle|Hlt].
  - rewrite !Z.shiftl_spec, Z.land_spec, Z.testbit_ones by lia.
    unfold BITS_PER_LONG. destruct (Z.testbit v (n - s)); compare_all; simpl; lia || reflexivity.
  - rewrite !Z.shiftl_spec_low by lia. compare_all; simpl; lia || reflexivity.
Qed.

(** Every field that fits in a byte has the mask [GENMASK(s+w-1, s)],
    whose lowest set bit is bit [s]. *)
Lemma GENMASK_field (w s : Z) :
  1 <= w -> 0 <= s -> s + w <= 8 ->
  GENMASK (s + w - 1) s = Z.shiftl (Z.ones w) s /\ bf_shf (GENMASK (s + w - 1) s) = s.
Proof.
  intros Hw Hs Hfit.
  assert (Hs' : s = 0 \/ s = 1 \/ s = 2 \/ s = 3 \/ s = 4 \/ s = 5 \/ s = 6 \/ s = 7) by lia.
  assert (Hw' : w = 1 \/ w = 2 \/ w = 3 \/ w = 4 \/ w = 5 \/ w = 6 \/ w = 7 \/ w = 8) by lia.
  repeat (destruct Hs' as [->|Hs']); try subst s;
    repeat (destruct Hw' as [->|Hw']); try subst w;
    first [lia | split; vm_compute; reflexivity].
Qed.

Lemma pack_small (v w s : Z) :
  0 <= v < 2 ^ w -> 0 <= s -> s + w <= 8 ->
  pack v w s = v * 2 ^ s.
Proof.
  intros Hv Hs Hfit.
  assert (Hw : 0 <= w) by (destruct (Z.le_gt_cases 0 w); [lia|]; rewrite Z.pow_neg_r in Hv; lia).
  unfold pack. change 255 with (Z.ones 8).
  rewrite !Z.land_ones, Z.shiftl_mul_pow2 by lia.
  rewrite (Z.mod_small v) by lia.
  apply Z.mod_small. split; [nia|].
  apply Z.lt_le_trans with (2 ^ w * 2 ^ s); [nia|].
  rewrite <- Z.pow_add_r by lia. apply Z.pow_le_mono_r; lia.
Qed.

Lemma unpack_shifted (v w s : Z) :
  0 <= v < 2 ^ w -> 0 <= s ->
  unpack (v * 2 ^ s) w s = v.
Proof.
  intros Hv Hs.
  assert (Hw : 0 <= w) by (destruct (Z.le_gt_cases 0 w); [lia|]; rewrite Z.pow_neg_r in Hv; lia).
  unfold unpack.
  rewrite <- Z.shiftl_mul_pow2, Z.shiftr_shiftl_l, Z.sub_diag, Z.shiftl_0_r by lia.
  rewrite Z.land_ones by lia. apply Z.mod_small. lia.
Qed.

End BitfieldFacts.

(** ** The register bus *)

Module RegmapFacts.
Import Bitfield Errno Regmap Adp5055.
Local Open Scope bus_scope.

Lemma in_range_writeable (m : regmap) (reg : Z) :
  config m = adp5055_regmap_config -> 0xD1 <= reg <= 0xE0 ->
  regmap_writeable m reg = true.
Proof.
  intros Hc Hr. unfold regmap_writeable. rewrite Hc.
  unfold regmap_check_range_table, regmap_reg_in_ranges, regmap_reg_in_range. simpl.
  rewrite !(proj2 (Z.leb_le _ _)) by lia. reflexivity.
Qed.

Lemma in_range_readable (m : regmap) (reg : Z) :
  config m = adp5055_regmap_config -> 0xD1 <= reg <= 0xE0 ->
  regmap_readable m reg = true.
Proof.
  intros Hc Hr. unfold regmap_readable. rewrite Hc.
  unfold regmap_check_range_table, regmap_reg_in_ranges, regmap_reg_in_range. simpl.
  rewrite !(proj2 (Z.leb_le _ _)) by lia. reflexivity.
Qed.

Lemma regmap_write_ok (reg val : Z) (m : regmap) :
  config m = adp5055_regmap_config -> 0xD1 <= reg <= 0xE0 ->
  bus_status m (length (trace m)) = 0 ->
  regmap_write reg val m = (0, log (Write reg val 0) (store reg (val mod 2 ^ 8) m)).
Proof.
  intros Hc Hr Hb. unfold regmap_write, next_status.
  rewrite in_range_writeable, Hb, Hc by assumption. reflexivity.
Qed.

Lemma regmap_write_fail (reg val e : Z) (m : regmap) :
  config m = adp5055_regmap_config -> 0xD1 <= reg <= 0xE0 ->
  bus_status m (length (trace m)) = e -> e <> 0 ->
  regmap_write reg val m = (e, log (Write reg val e) m).
Proof.
  intros Hc Hr Hb He. unfold regmap_write, next_status.
  rewrite in_range_writeable, Hb by assumption.
  destruct (Z.eqb_spec e 0); [contradiction | reflexivity].
Qed.

Lemma regmap_read_ok (reg val : Z) (m : regmap) :
  config m = adp5055_regmap_config -> 0xD1 <= reg <= 0xE0 ->
  bus_status m (length (trace m)) = 0 ->
  regmap_read reg val m = ((0, regs m reg), log (Read reg 0) m).
Proof.
  intros Hc Hr Hb. unfold regmap_read, next_status.
  rewrite in_range_readable, Hb by assumption. reflexivity.
Qed.

Lemma regmap_update_bits_ok (reg mask val : Z) (m : regmap) :
  config m = adp5055_regmap_config -> 0xD1 <= reg <= 0xE0 ->
  bus_ok 2 m ->
  let new := Z.lor (Z.land (regs m reg) (Z.lnot mask mod 2 ^ 32)) (Z.land val mask) in
  regmap_update_bits reg mask val m =
    (0, log (Write reg new 0) (store reg (new mod 2 ^ 8) (log (Read reg 0) m))).
Proof.
  intros Hc Hr Hb new. unfold regmap_update_bits, bind.
  rewrite regmap_read_ok; try assumption.
  - change (0 =? 0) with true. cbv iota beta.
    rewrite regmap_write_ok; try assumption; [reflexivity|].
    simpl. rewrite length_app. simpl. apply (Hb 1%nat). lia.
  - specialize (Hb 0%nat). rewrite Nat.add_0_r in Hb. apply Hb. lia.
Qed.

(** The bus status seen by later accesses once one access is logged. *)
Lemma bus_ok_log (n : nat) (e : access) (m m' : regmap) :
  bus_ok (S n) m -> bus_status m' = bus_status m -> trace m' = trace m ++ [e] ->
  bus_ok n m'.
Proof.
  intros Hb Hs Ht k Hk. rewrite Hs, Ht, length_app. simpl.
  replace (length (trace m) + 1 + k)%nat with (length (trace m) + S k)%nat by lia.
  apply Hb. lia.
Qed.

Lemma write_each_ok (ws : list (Z * Z)) (m : regmap) :
  config m = adp5055_regmap_config ->
  Forall (fun w => 0xD1 <= fst w <= 0xE0) ws ->
  bus_ok (length ws) m ->
  regmap_write_each ws m =
    (0, {| config := config m; regs := stored ws (regs m);
           trace := trace m ++ map written ws; bus_status := bus_status m |}).
Proof.
  revert m. induction ws as [|[reg val] ws IH]; intros m Hc Hr Hb.
  - simpl. unfold ret. rewrite app_nil_r. destruct m; reflexivity.
  - inversion Hr as [|? ? Hreg Hr']; subst. simpl in Hreg.
    simpl regmap_write_each. unfold check, bind.
    rewrite regmap_write_ok; try assumption.
    + change (0 =? 0) with true. cbv iota beta.
      rewrite IH; try assumption.
      * simpl. rewrite <- app_assoc. reflexivity.
      * eapply bus_ok_log; [exact Hb| reflexivity | reflexivity].
    + specialize (Hb 0%nat). rewrite Nat.add_0_r in Hb. apply Hb. simpl. lia.
Qed.

Lemma write_each_fail (pre post : list (Z * Z)) (w : Z * Z) (e : Z) (m : regmap) :
  config m = adp5055_regmap_config ->
  Forall (fun w => 0xD1 <= fst w <= 0xE0) (pre ++ [w]) ->
  bus_ok (length pre) m ->
  bus_status m (length (trace m) + length pre) = e -> e <> 0 ->
  regmap_write_each (pre ++ w :: post) m =
    (e, {| config := config m; regs := stored pre (regs m);
           trace := trace m ++ map written pre ++ [Write (fst w) (snd w) e];
           bus_status := bus_status m |}).
Proof.
  revert m. induction pre as [|[reg val] pre IH]; intros m Hc Hr Hb Hs He.
  - destruct w as [reg val]. simpl in Hr. apply Forall_cons_1 in Hr as [Hreg _]. simpl in Hreg.
    simpl. unfold check, bind. simpl in Hs. rewrite Nat.add_0_r in Hs.
    rewrite (regmap_write_fail reg val e) by assumption.
    destruct (Z.eqb_spec e 0); [contradiction|]. destruct m; reflexivity.
  - simpl in Hr. apply Forall_cons_1 in Hr as [Hreg Hr']. simpl in Hreg.
    simpl regmap_write_each. unfold check, bind.
    rewrite regmap_write_ok; try assumption.
    + change (0 =? 0) with true. cbv iota beta.
      rewrite IH.
      * simpl. rewrite <- app_assoc. reflexivity.
      * exact Hc.
      * exact Hr'.
      * eapply bus_ok_log; [exact Hb| reflexivity | reflexivity].
      * simpl. rewrite length_app. simpl. rewrite <- Hs. f_equal. simpl. lia.
      * assumption.
    + specialize (Hb 0%nat). rewrite Nat.add_0_r in Hb. apply Hb. simpl. lia.
Qed.

(** Whatever the bus answers, a sequence of writes leaves the
    configuration and the bus alone, only logs writes to registers of
    the sequence, and changes no other register. *)
Lemma write_each_frame (ws : list (Z * Z)) (m : regmap) :
  let m' := snd (regmap_write_each ws m) in
  config m' = config m /\ bus_status m' = bus_status m /\
  (exists evs, trace m' = trace m ++ evs /\ (length evs <= length ws)%nat /\
               Forall (fun e => is_write e = true /\ access_reg e ∈ map fst ws) evs) /\
  (forall reg, reg ∉ map fst ws -> regs m' reg = regs m reg).
Proof.
  revert m. induction ws as [|[reg val] ws IH]; intros m; cbv zeta.
  - simpl. repeat split. exists []. rewrite app_nil_r. repeat split; constructor.
  - simpl regmap_write_each. unfold check, bind, regmap_write.
    set (status := next_status (regmap_writeable m reg) m).
    destruct (Z.eqb_spec status 0) as [Hz|Hnz].
    + set (m1 := log (Write reg val status) (store reg (val mod 2 ^ val_bits (config m)) m)).
      destruct (IH m1) as (Hc & Hs & (evs & Ht & Hlen & Hall) & Hregs).
      rewrite Hc, Hs. repeat split.
      * exists (Write reg val status :: evs). rewrite Ht. simpl. rewrite <- app_assoc.
        split; [reflexivity|]. split; [simpl; lia|]. constructor.
        -- simpl. split; [reflexivity | apply list_elem_of_here].
        -- eapply Forall_impl; [|exact Hall]. intros e [He1 He2].
           split; [exact He1 | apply list_elem_of_further, He2].
      * intros reg' Hreg'. simpl in Hreg'. apply not_elem_of_cons in Hreg' as [Hne Hnin].
        rewrite (Hregs reg' Hnin). simpl. apply fn_lookup_insert_ne. congruence.
    + simpl. repeat split.
      exists [Write reg val status]. split; [reflexivity|]. split; [simpl; lia|].
      constructor; [|constructor]. simpl. split; [reflexivity | apply list_elem_of_here].
Qed.

Lemma only_accesses_impl {A : Type} (P Q : access -> Prop) (c : bus A) :
  (forall e, P e -> Q e) -> only_accesses P c -> only_accesses Q c.
Proof.
  intros HPQ Hc m. destruct (Hc m) as (evs & Ht & Hall).
  exists evs. split; [exact Ht|]. eapply Forall_impl; eauto.
Qed.

Lemma only_accesses_read (reg val : Z) :
  only_accesses (fun e => access_reg e = reg) (regmap_read reg val).
Proof.
  intros m. eexists. split; [reflexivity|]. constructor; [reflexivity | constructor].
Qed.

Lemma only_accesses_write (reg val : Z) :
  only_accesses (fun e => access_reg e = reg) (regmap_write reg val).
Proof.
  intros m. unfold regmap_write.
  destruct (next_status (regmap_writeable m reg) m =? 0);
    (eexists; split; [reflexivity|]; constructor; [reflexivity | constructor]).
Qed.

Lemma only_accesses_update_bits (reg mask val : Z) :
  only_accesses (fun e => access_reg e = reg) (regmap_update_bits reg mask val).
Proof.
  intros m. unfold regmap_update_bits, bind, regmap_read.
  set (status := next_status (regmap_readable m reg) m).
  destruct (Z.eqb_spec status 0) as [Hz|Hnz].
  - destruct (only_accesses_write reg
                (Z.lor (Z.land (regs m reg) (Z.lnot mask mod 2 ^ 32)) (Z.land val mask))
                (log (Read reg status) m)) as (evs & Ht & Hall).
    exists (Read reg status :: evs). rewrite Ht. simpl. rewrite <- app_assoc.
    split; [reflexivity|]. constructor; [reflexivity | exact Hall].
  - eexists. split; [reflexivity|]. repeat constructor.
Qed.

End RegmapFacts.

Import Bitfield FieldCodec Errno Regmap Property LinearRange Adp5055.
Import BitfieldFacts RegmapFacts.

(** ** Field codec *)

Section FieldCodecProperties.

Lemma FIELD_GET_unpack (mask w s reg : Z) :
  0 <= w -> 0 <= s ->
  mask = Z.shiftl (Z.ones w) s -> bf_shf mask = s ->
  FIELD_GET mask reg = unpack reg w s.
Proof.
  intros Hw Hs Hmask Hshf. unfold FIELD_GET, unpack. rewrite Hshf, Hmask.
  apply Z.bits_inj'. intros n Hn.
  rewrite Z.shiftr_spec, !Z.land_spec, Z.shiftr_spec, testbit_field_mask by lia.
  rewrite Z.testbit_ones by lia.
  destruct (Z.testbit reg (n + s)); compare_all; simpl; lia || reflexivity.
Qed.

(** A field of no width has the empty mask and holds nothing. *)
Lemma FIELD_empty (s : Z) :
  0 <= s <= 8 ->
  FIELD_PREP (GENMASK (s + 0 - 1) s) 0 = 0 /\ FIELD_GET (GENMASK (s + 0 - 1) s) 0 = 0.
Proof.
  intros Hs.
  assert (Hs' : s = 0 \/ s = 1 \/ s = 2 \/ s = 3 \/ s = 4 \/ s = 5 \/ s = 6 \/ s = 7 \/ s = 8)
    by lia.
  repeat (destruct Hs' as [->|Hs']); try subst s; split; vm_compute; reflexivity.
Qed.

(** C7: for every value below [2^width] whose field [shift, shift+width)
    fits in the byte, unpacking the packed value gives the value back;
    [pack] is the value masked to [width] bits and shifted left by
    [shift], a byte, and it is what [FIELD_PREP] computes on the field's
    mask [GENMASK(shift+width-1, shift)], which [FIELD_GET] inverts. *)
Theorem unpack_pack (value width shift : Z) :
  0 <= value < 2 ^ width -> 0 <= shift -> shift + width <= 8 ->
  unpack (pack value width shift) width shift = value /\
  pack value width shift = Z.shiftl (Z.land value (Z.ones width)) shift /\
  pack value width shift = value * 2 ^ shift /\
  0 <= pack value width shift < 256 /\
  FIELD_PREP (GENMASK (shift + width - 1) shift) value = pack value width shift /\
  FIELD_GET (GENMASK (shift + width - 1) shift)
            (FIELD_PREP (GENMASK (shift + width - 1) shift) value) = value.
Proof.
  intros Hv Hs Hfit.
  assert (Hw : 0 <= width)
    by (destruct (Z.le_gt_cases 0 width); [lia|]; rewrite Z.pow_neg_r in Hv; lia).
  assert (Hpack : pack value width shift = value * 2 ^ shift) by (apply pack_small; lia).
  assert (Hround : unpack (pack value width shift) width shift = value)
    by (rewrite Hpack; apply unpack_shifted; lia).
  assert (Hbyte : 0 <= value * 2 ^ shift < 256).
  { split; [nia|]. apply Z.lt_le_trans with (2 ^ width * 2 ^ shift); [nia|].
    rewrite <- Z.pow_add_r by lia. change 256 with (2 ^ 8). apply Z.pow_le_mono_r; lia. }
  split; [exact Hround|]. split.
  { rewrite Hpack, Z.land_ones, Z.mod_small, Z.shiftl_mul_pow2 by lia. reflexivity. }
  split; [exact Hpack|]. split; [rewrite Hpack; exact Hbyte|].
  destruct (Z.eq_dec width 0) as [->|Hw0].
  - assert (value = 0) by (change (2 ^ 0) with 1 in Hv; lia). subst value.
    destruct (FIELD_empty shift) as [Hprep Hget]; [lia|].
    rewrite Hprep, Hget. split; [|reflexivity]. rewrite Hpack. lia.
  - destruct (GENMASK_field width shift) as [Hmask Hshf]; try lia.
    assert (Hprep : FIELD_PREP (GENMASK (shift + width - 1) shift) value
                    = pack value width shift)
      by (apply FIELD_PREP_pack; assumption).
    split; [exact Hprep|].
    rewrite Hprep, (FIELD_GET_unpack _ width shift) by assumption. exact Hround.
Qed.

(** The enable delay code 5 in bits 2-0 and the disable delay code 5 in
    bits 6-4. *)
Lemma unpack_pack_witness :
  unpack (pack 5 3 4) 3 4 = 5 /\ pack 5 3 4 = 80 /\ pack 5 3 0 = 5.
Proof.
  destruct (unpack_pack 5 3 4) as (Hround & _ & Hpack & _); [lia | lia | lia |].
  split; [exact Hround|]. split; [exact Hpack|]. reflexivity.
Defined.

End FieldCodecProperties.

(** ** Linear voltage map *)

Section VoltageMapProperties.

(** Every descriptor of the driver has the one linear segment of
    [adp5055_voltage_ranges]. *)
Lemma regulators_lookup (i : nat) (desc : regulator_desc) :
  adp5055_regulators !! i = Some desc ->
  (i = 0%nat /\ desc = ADP5055_REG "DCDC1" ID0) \/
  (i = 1%nat /\ desc = ADP5055_REG "DCDC2" ID1) \/
  (i = 2%nat /\ desc = ADP5055_REG "DCDC3" ID2).
Proof.
  intros H. destruct i as [|[|[|i]]]; simpl in H; try discriminate;
    injection H as <-; auto.
Qed.

Lemma list_voltage_eq (i : nat) (desc : regulator_desc) (code : Z) :
  adp5055_regulators !! i = Some desc ->
  list_voltage adp5055_ops desc code = 408000 + code * 1500.
Proof.
  intros H. destruct (regulators_lookup i desc H) as [[_ ->]|[[_ ->]|[_ ->]]];
    cbn; unfold code_to_microvolt; cbn; lia.
Qed.

Lemma map_voltage_eq (i : nat) (desc : regulator_desc) (voltage : Z) :
  adp5055_regulators !! i = Some desc ->
  map_voltage adp5055_ops desc voltage =
    if (voltage <? 408000) || (790500 <? voltage) then Err OutOfRange
    else Ok (clamp 0 255 (DIV_ROUND_UP (voltage - 408000) 1500 + 0)).
Proof.
  intros H. destruct (regulators_lookup i desc H) as [[_ ->]|[[_ ->]|[_ ->]]];
    reflexivity.
Qed.

(** The rounded-up quotient by the step is the ceiling. *)
Lemma DIV_ROUND_UP_ceil (n : Z) :
  let q := DIV_ROUND_UP n 1500 in (q - 1) * 1500 < n <= q * 1500.
Proof.
  unfold DIV_ROUND_UP. cbv zeta.
  pose proof (Z.div_mod (n + 1500 - 1) 1500 ltac:(lia)) as Hdm.
  pose proof (Z.mod_pos_bound (n + 1500 - 1) 1500 ltac:(lia)) as Hb.
  lia.
Qed.

(** C5: for every selector code in 0..255 of every channel,
    [list_voltage] (the spec's code_to_microvolt) is
    [408000 + code * 1500], so it is 408000 at code 0 and 790500 at code
    255; [map_voltage] (the spec's microvolt_to_code) of that voltage
    gives the code back; and the voltage is strictly monotonic in the
    code. *)
Theorem voltage_code_roundtrip (i : nat) (desc : regulator_desc) (code code' : Z) :
  adp5055_regulators !! i = Some desc ->
  0 <= code <= 255 -> 0 <= code' <= 255 ->
  list_voltage adp5055_ops desc code = 408000 + code * 1500 /\
  list_voltage adp5055_ops desc 0 = 408000 /\
  list_voltage adp5055_ops desc 255 = 790500 /\
  map_voltage adp5055_ops desc (list_voltage adp5055_ops desc code) = Ok code /\
  (code < code' <-> list_voltage adp5055_ops desc code < list_voltage adp5055_ops desc code').
Proof.
  intros H Hc Hc'. rewrite !(list_voltage_eq i desc) by exact H.
  split; [reflexivity|]. split; [reflexivity|]. split; [reflexivity|]. split; [|lia].
  rewrite (map_voltage_eq i desc) by exact H.
  destruct (Z.ltb_spec (408000 + code * 1500) 408000); [lia|].
  destruct (Z.ltb_spec 790500 (408000 + code * 1500)); [lia|]. simpl. f_equal.
  pose proof (DIV_ROUND_UP_ceil (408000 + code * 1500 - 408000)) as Hq. cbv zeta in Hq.
  unfold clamp. lia.
Qed.

(** Channel 1 (DCDC2) at the codes 62 and 63. *)
Lemma voltage_code_roundtrip_witness :
  list_voltage adp5055_ops (ADP5055_REG "DCDC2" ID1) 62 = 501000 /\
  map_voltage adp5055_ops (ADP5055_REG "DCDC2" ID1) 501000 = Ok 62 /\
  list_voltage adp5055_ops (ADP5055_REG "DCDC2" ID1) 62
    < list_voltage adp5055_ops (ADP5055_REG "DCDC2" ID1) 63.
Proof.
  destruct (voltage_code_roundtrip 1 (ADP5055_REG "DCDC2" ID1) 62 63)
    as (Hlist & _ & _ & Hmap & Hmono); [reflexivity | lia | lia |].
  split; [exact Hlist|]. split; [exact Hmap|]. apply Hmono. lia.
Defined.

(** C6: [map_voltage] (the spec's microvolt_to_code) answers
    [OutOfRange] exactly for the voltages outside [408000, 790500]; for
    a voltage inside, it answers a code of 0..255 that is
    [ceil((voltage - 408000) / 1500)], the least code whose voltage is
    at least the requested one. *)
Theorem map_voltage_ceiling (i : nat) (desc : regulator_desc) (voltage : Z) :
  adp5055_regulators !! i = Some desc ->
  match map_voltage adp5055_ops desc voltage with
  | Err OutOfRange => voltage < 408000 \/ 790500 < voltage
  | Ok code =>
      408000 <= voltage <= 790500 /\
      0 <= code <= 255 /\
      code = (voltage - 408000 + 1499) / 1500 /\
      (code - 1) * 1500 < voltage - 408000 <= code * 1500 /\
      voltage <= list_voltage adp5055_ops desc code /\
      forall c, 0 <= c <= 255 -> voltage <= list_voltage adp5055_ops desc c -> code <= c
  end.
Proof.
  intros H. rewrite (map_voltage_eq i desc) by exact H.
  destruct (Z.ltb_spec voltage 408000); [simpl; lia|].
  destruct (Z.ltb_spec 790500 voltage); [simpl; lia|]. simpl.
  pose proof (DIV_ROUND_UP_ceil (voltage - 408000)) as Hq. cbv zeta in Hq.
  assert (Hcl : clamp 0 255 (DIV_ROUND_UP (voltage - 408000) 1500 + 0)
                = DIV_ROUND_UP (voltage - 408000) 1500) by (unfold clamp; lia).
  rewrite Hcl. rewrite (list_voltage_eq i desc) by exact H.
  split; [lia|]. split; [lia|]. split.
  { unfold DIV_ROUND_UP. f_equal. lia. }
  split; [lia|]. split; [lia|].
  intros c Hc. rewrite (list_voltage_eq i desc) by exact H. lia.
Qed.

(** Channel 0 (DCDC1): 500000 uV needs code 62 (501000 uV), since code
    61 gives 499500 uV only; 800000 uV and 400000 uV are out of range. *)
Lemma map_voltage_ceiling_witness :
  (map_voltage adp5055_ops (ADP5055_REG "DCDC1" ID0) 500000 = Ok 62 /\
   500000 <= list_voltage adp5055_ops (ADP5055_REG "DCDC1" ID0) 62) /\
  (map_voltage adp5055_ops (ADP5055_REG "DCDC1" ID0) 800000 = Err OutOfRange /\
   (800000 < 408000 \/ 790500 < 800000)) /\
  (map_voltage adp5055_ops (ADP5055_REG "DCDC1" ID0) 400000 = Err OutOfRange /\
   (400000 < 408000 \/ 790500 < 400000)).
Proof.
  pose proof (map_voltage_ceiling 0 (ADP5055_REG "DCDC1" ID0) 500000 eq_refl) as Hin.
  pose proof (map_voltage_ceiling 0 (ADP5055_REG "DCDC1" ID0) 800000 eq_refl) as Hhigh.
  pose proof (map_voltage_ceiling 0 (ADP5055_REG "DCDC1" ID0) 400000 eq_refl) as Hlow.
  change (map_voltage adp5055_ops (ADP5055_REG "DCDC1" ID0) 500000) with (Ok 62) in Hin.
  destruct Hin as (_ & _ & _ & _ & Hle & _).
  split; [split; [reflexivity | exact Hle]|].
  split; (split; [reflexivity|]); [exact Hhigh | exact Hlow].
Defined.

End VoltageMapProperties.

(** ** Resolving the configuration *)

Section ResolveProperties.

Lemma sized_inv (a : adp5055) :
  sized a ->
  exists d0 d1 d2 e0 e1 e2 u0 u1 u2 l0 l1 l2 f0 f1 f2,
    disable_delay_code_ch123 a = [d0; d1; d2] /\
    enable_delay_code_ch123 a = [e0; e1; e2] /\
    dvs_limit_upper_code_ch123 a = [u0; u1; u2] /\
    dvs_limit_lower_code_ch123 a = [l0; l1; l2] /\
    fast_transient_code_ch123 a = [f0; f1; f2].
Proof.
  intros (Hd & He & Hu & Hl & Hf).
  destruct (disable_delay_code_ch123 a) as [|d0 [|d1 [|d2 [|]]]]; try discriminate.
  destruct (enable_delay_code_ch123 a) as [|e0 [|e1 [|e2 [|]]]]; try discriminate.
  destruct (dvs_limit_upper_code_ch123 a) as [|u0 [|u1 [|u2 [|]]]]; try discriminate.
  destruct (dvs_limit_lower_code_ch123 a) as [|l0 [|l1 [|l2 [|]]]]; try discriminate.
  destruct (fast_transient_code_ch123 a) as [|f0 [|f1 [|f2 [|]]]]; try discriminate.
  repeat eexists.
Qed.

(** Lines 107-119 on any structure: the documented defaults. *)
Lemma parse_fw_defaults_eq (a : adp5055) :
  sized a ->
  parse_fw_defaults a =
  {| enable_mode_code := 0;
     ocp_blanking := false;
     power_saving_mode_ch321_code := 0;
     output_discharge_function_ch321_code := 7;
     disable_delay_code_ch123 := [0; 0; 0];
     enable_delay_code_ch123 := [0; 0; 0];
     dvs_limit_upper_code_ch123 := [0; 0; 0];
     dvs_limit_lower_code_ch123 := [0; 0; 0];
     fast_transient_code_ch123 := [3; 3; 3];
     delay_power_good := true;
     mask_power_good_ch321_code := 0 |}.
Proof.
  intros Hs. destruct (sized_inv a Hs)
    as (d0 & d1 & d2 & e0 & e1 & e2 & u0 & u1 & u2 & l0 & l1 & l2 & f0 & f1 & f2
        & Hd & He & Hu & Hl & Hf).
  destruct a; simpl in Hd, He, Hu, Hl, Hf; subst. reflexivity.
Qed.

(** C1, as the code has it: on a source with no property, the resolved
    structure holds every documented default except the power-good-delay
    flag.  Line 118 sets the flag to its default, true; line 138 then
    assigns it the result of [device_property_read_bool], which is false
    for an absent property, so the register PG_CFG is written 0x00 and
    not 0x10. *)
Theorem empty_source_resolution (a : adp5055) :
  sized a ->
  delay_power_good (parse_fw_defaults a) = true /\
  parse_fw_properties ∅ (parse_fw_defaults a) =
  {| enable_mode_code := 0;
     ocp_blanking := false;
     power_saving_mode_ch321_code := 0;
     output_discharge_function_ch321_code := 7;
     disable_delay_code_ch123 := [0; 0; 0];
     enable_delay_code_ch123 := [0; 0; 0];
     dvs_limit_upper_code_ch123 := [0; 0; 0];
     dvs_limit_lower_code_ch123 := [0; 0; 0];
     fast_transient_code_ch123 := [3; 3; 3];
     delay_power_good := false;
     mask_power_good_ch321_code := 0 |} /\
  register_writes (parse_fw_properties ∅ (parse_fw_defaults a)) !! 9%nat
    = Some (ADP5055_PG_CFG, 0x00).
Proof.
  intros Hs. rewrite (parse_fw_defaults_eq a Hs). repeat split.
Qed.

Lemma empty_source_resolution_witness :
  delay_power_good (parse_fw_properties ∅ (parse_fw_defaults adp5055_kzalloc)) = false /\
  fast_transient_code_ch123 (parse_fw_properties ∅ (parse_fw_defaults adp5055_kzalloc))
    = [3; 3; 3].
Proof.
  assert (Hs : sized adp5055_kzalloc) by (repeat split).
  destruct (empty_source_resolution adp5055_kzalloc Hs) as (_ & Heq & _).
  rewrite Heq. split; reflexivity.
Defined.

Lemma read_u32_array_wrong_length
    (dev : device) (propname : string) (cells val : list Z) (nval : nat) :
  dev !! propname = Some cells -> length cells <> nval ->
  device_property_read_u32_array dev propname val nval = (- EOVERFLOW, val).
Proof.
  intros Hp Hl. unfold device_property_read_u32_array. rewrite Hp.
  destruct (decide (length cells = nval)); [contradiction | reflexivity].
Qed.

Lemma parse_fw_properties_array (p : array_property) (dev : device) (a : adp5055) :
  array_property_member p (parse_fw_properties dev a) =
  snd (device_property_read_u32_array dev (array_property_name p)
         (array_property_member p a) ADP5055_NUM_CH).
Proof. destruct p; reflexivity. Qed.

Lemma parse_fw_defaults_array (p : array_property) (a : adp5055) :
  sized a -> array_property_member p (parse_fw_defaults a) = array_property_default p.
Proof. intros Hs. rewrite (parse_fw_defaults_eq a Hs). destruct p; reflexivity. Qed.

Lemma register_writes_range (a : adp5055) :
  Forall (fun w => 0xD1 <= fst w <= 0xE0) (register_writes a).
Proof. unfold register_writes. repeat constructor; simpl; vm_compute; discriminate. Qed.

Lemma parse_fw_writes_each (a : adp5055) :
  parse_fw_writes a = regmap_write_each (register_writes a).
Proof. reflexivity. Qed.

(** C2, amended: when an array property is present with a length other
    than three, the failed read goes unnoticed: the member keeps its
    default, the structure is still produced, and the write phase runs
    (on a bus without errors the function returns 0 after its ten
    writes). *)
Theorem wrong_length_array_ignored
    (dev : device) (a : adp5055) (m : regmap) (p : array_property) (cells : list Z) :
  dev !! array_property_name p = Some cells ->
  length cells <> ADP5055_NUM_CH ->
  sized a -> adp5055_regmap m -> bus_ok 10 m ->
  exists a' m',
    adp5055_parse_fw dev a m = ((0, a'), m') /\
    a' = parse_fw_properties dev (parse_fw_defaults a) /\
    array_property_member p a' = array_property_default p /\
    length (register_writes a') = 10%nat /\
    trace m' = trace m ++ map written (register_writes a').
Proof.
  intros Hp Hl Hs [Hc _] Hb.
  exists (parse_fw_properties dev (parse_fw_defaults a)).
  unfold adp5055_parse_fw, bind. rewrite parse_fw_writes_each.
  rewrite write_each_ok; [| exact Hc | apply register_writes_range | exact Hb].
  eexists. split; [reflexivity|]. split; [reflexivity|]. split; [|split; reflexivity].
  rewrite parse_fw_properties_array, (read_u32_array_wrong_length dev _ cells) by assumption.
  apply parse_fw_defaults_array, Hs.
Qed.

Lemma idle_regmap_ok (n : nat) : adp5055_regmap idle_regmap /\ bus_ok n idle_regmap.
Proof.
  split; [split; [reflexivity | intros reg; simpl; lia] | intros k Hk; reflexivity].
Defined.

Lemma wrong_length_array_ignored_witness :
  exists a' m',
    adp5055_parse_fw short_array_device adp5055_kzalloc idle_regmap = ((0, a'), m') /\
    disable_delay_code_ch123 a' = [0; 0; 0] /\
    length (trace m') = 10%nat.
Proof.
  destruct (wrong_length_array_ignored short_array_device adp5055_kzalloc idle_regmap
              DisableDelay [1; 2])
    as (a' & m' & Hrun & _ & Hmember & Hlen & Htrace).
  - reflexivity.
  - intros H. vm_compute in H. discriminate H.
  - repeat split.
  - apply (idle_regmap_ok 10).
  - apply (idle_regmap_ok 10).
  - exists a', m'. split; [exact Hrun|]. split; [exact Hmember|].
    rewrite Htrace, length_app, length_map, Hlen. reflexivity.
Defined.

(** C2 as stated fails: the disable-delay array is present with two
    cells, yet the function returns 0 (no error), leaves a structure
    with the defaults in that member, and makes its ten register
    writes. *)
Lemma wrong_length_array_counterexample :
  short_array_device !! "adi,disable-delay-code-ch123" = Some [1; 2] /\
  fst (fst (adp5055_parse_fw short_array_device adp5055_kzalloc idle_regmap)) = 0 /\
  disable_delay_code_ch123
    (snd (fst (adp5055_parse_fw short_array_device adp5055_kzalloc idle_regmap)))
    = [0; 0; 0] /\
  trace (snd (adp5055_parse_fw short_array_device adp5055_kzalloc idle_regmap)) =
    [Write 0xD3 0 0; Write 0xD4 7 0; Write 0xD5 0 0; Write 0xD6 0 0; Write 0xD7 0 0;
     Write 0xDC 0 0; Write 0xDD 0 0; Write 0xDE 0 0; Write 0xDF 63 0; Write 0xE0 0 0].
Proof. vm_compute. repeat split. Qed.

End ResolveProperties.

(** ** The register write plan *)

Section WritePlanProperties.

(** Each mask of the driver is a contiguous field, on which
    [FIELD_PREP] packs the field's width at the field's shift. *)

Lemma prep_EN_MODE (v : Z) : FIELD_PREP ADP5055_MASK_EN_MODE v = pack v 2 0.
Proof. apply FIELD_PREP_pack; (lia || reflexivity). Qed.

Lemma prep_OCP_BLANKING (v : Z) : FIELD_PREP ADP5055_MASK_OCP_BLANKING v = pack v 1 7.
Proof. apply FIELD_PREP_pack; (lia || reflexivity). Qed.

Lemma prep_PSM321 (v : Z) : FIELD_PREP ADP5055_MASK_PSM321 v = pack v 3 4.
Proof. apply FIELD_PREP_pack; (lia || reflexivity). Qed.

Lemma prep_DIS (v : Z) : FIELD_PREP ADP5055_MASK_DIS v = pack v 3 0.
Proof. apply FIELD_PREP_pack; (lia || reflexivity). Qed.

Lemma prep_DIS_DLY (v : Z) : FIELD_PREP ADP5055_MASK_DIS_DLY v = pack v 3 4.
Proof. apply FIELD_PREP_pack; (lia || reflexivity). Qed.

Lemma prep_EN_DLY (v : Z) : FIELD_PREP ADP5055_MASK_EN_DLY v = pack v 3 0.
Proof. apply FIELD_PREP_pack; (lia || reflexivity). Qed.

Lemma prep_DVS_LIM_UPPER (v : Z) : FIELD_PREP ADP5055_MASK_DVS_LIM_UPPER v = pack v 4 4.
Proof. apply FIELD_PREP_pack; (lia || reflexivity). Qed.

Lemma prep_DVS_LIM_LOWER (v : Z) : FIELD_PREP ADP5055_MASK_DVS_LIM_LOWER v = pack v 4 0.
Proof. apply FIELD_PREP_pack; (lia || reflexivity). Qed.

Lemma prep_FAST_TRANSIENT1 (v : Z) : FIELD_PREP ADP5055_MASK_FAST_TRANSIENT1 v = pack v 2 0.
Proof. apply FIELD_PREP_pack; (lia || reflexivity). Qed.

Lemma prep_FAST_TRANSIENT2 (v : Z) : FIELD_PREP ADP5055_MASK_FAST_TRANSIENT2 v = pack v 2 2.
Proof. apply FIELD_PREP_pack; (lia || reflexivity). Qed.

Lemma prep_FAST_TRANSIENT3 (v : Z) : FIELD_PREP ADP5055_MASK_FAST_TRANSIENT3 v = pack v 2 4.
Proof. apply FIELD_PREP_pack; (lia || reflexivity). Qed.

Lemma prep_DLY_PWRGD (v : Z) : FIELD_PREP ADP5055_MASK_DLY_PWRGD v = pack v 1 4.
Proof. apply FIELD_PREP_pack; (lia || reflexivity). Qed.

Lemma prep_PWRGD321 (v : Z) : FIELD_PREP ADP5055_MASK_PWRGD321 v = pack v 3 0.
Proof. apply FIELD_PREP_pack; (lia || reflexivity). Qed.

Create Rewrite HintDb field_masks.
#[local] Hint Rewrite prep_EN_MODE prep_OCP_BLANKING prep_PSM321 prep_DIS prep_DIS_DLY prep_EN_DLY
  prep_DVS_LIM_UPPER prep_DVS_LIM_LOWER prep_FAST_TRANSIENT1 prep_FAST_TRANSIENT2
  prep_FAST_TRANSIENT3 prep_DLY_PWRGD prep_PWRGD321 : field_masks.

(** Fields packed at disjoint bit ranges do not overlap. *)
Lemma pack_disjoint (v1 w1 s1 v2 w2 s2 : Z) :
  0 <= w1 -> 0 <= s1 -> 0 <= w2 -> 0 <= s2 -> s2 + w2 <= s1 ->
  Z.land (pack v1 w1 s1) (pack v2 w2 s2) = 0.
Proof.
  intros Hw1 Hs1 Hw2 Hs2 Hd. unfold pack.
  apply Z.bits_inj'. intros n Hn.
  rewrite !Z.land_spec, Z.bits_0.
  destruct (Z.le_gt_cases s1 n) as [Hle|Hlt].
  - rewrite (Z.shiftl_spec _ s2), Z.land_spec, (Z.testbit_ones w2) by lia.
    replace (n - s2 <? w2) with false by (symmetry; apply Z.ltb_ge; lia).
    rewrite !Bool.andb_false_r. reflexivity.
  - rewrite (Z.shiftl_spec_low _ s1) by lia. reflexivity.
Qed.

(** C3: on a bus without errors, [parse_fw_writes] returns 0 after
    exactly ten writes, in the order CTRL_MODE1 (0xD3), CTRL_MODE2
    (0xD4), DLY0-DLY2 (0xD5-0xD7), DVS_LIM0-DVS_LIM2 (0xDC-0xDE), FT_CFG
    (0xDF), PG_CFG (0xE0); each byte is the bitwise OR of the register's
    fields, each packed at its width and shift. *)
Theorem parse_fw_writes_plan (a : adp5055) (m : regmap) :
  adp5055_regmap m -> bus_ok 10 m ->
  exists m',
    parse_fw_writes a m = (0, m') /\
    trace m' = trace m ++
      [ Write 0xD3 (pack (enable_mode_code a) 2 0) 0;
        Write 0xD4 (Z.lor (Z.lor (pack (Z.b2z (ocp_blanking a)) 1 7)
                                 (pack (power_saving_mode_ch321_code a) 3 4))
                          (pack (output_discharge_function_ch321_code a) 3 0)) 0;
        Write 0xD5 (Z.lor (pack (disable_delay_code_ch123 a !!! 0%nat) 3 4)
                          (pack (enable_delay_code_ch123 a !!! 0%nat) 3 0)) 0;
        Write 0xD6 (Z.lor (pack (disable_delay_code_ch123 a !!! 1%nat) 3 4)
                          (pack (enable_delay_code_ch123 a !!! 1%nat) 3 0)) 0;
        Write 0xD7 (Z.lor (pack (disable_delay_code_ch123 a !!! 2%nat) 3 4)
                          (pack (enable_delay_code_ch123 a !!! 2%nat) 3 0)) 0;
        Write 0xDC (Z.lor (pack (dvs_limit_upper_code_ch123 a !!! 0%nat) 4 4)
                          (pack (dvs_limit_lower_code_ch123 a !!! 0%nat) 4 0)) 0;
        Write 0xDD (Z.lor (pack (dvs_limit_upper_code_ch123 a !!! 1%nat) 4 4)
                          (pack (dvs_limit_lower_code_ch123 a !!! 1%nat) 4 0)) 0;
        Write 0xDE (Z.lor (pack (dvs_limit_upper_code_ch123 a !!! 2%nat) 4 4)
                          (pack (dvs_limit_lower_code_ch123 a !!! 2%nat) 4 0)) 0;
        Write 0xDF (Z.lor (Z.lor (pack (fast_transient_code_ch123 a !!! 0%nat) 2 0)
                                 (pack (fast_transient_code_ch123 a !!! 1%nat) 2 2))
                          (pack (fast_transient_code_ch123 a !!! 2%nat) 2 4)) 0;
        Write 0xE0 (Z.lor (pack (Z.b2z (delay_power_good a)) 1 4)
                          (pack (mask_power_good_ch321_code a) 3 0)) 0 ].
Proof.
  intros [Hc _] Hb. rewrite parse_fw_writes_each.
  rewrite write_each_ok; [| exact Hc | apply register_writes_range | exact Hb].
  eexists. split; [reflexivity|]. cbn [trace]. f_equal.
  unfold register_writes. cbn [map written fst snd].
  autorewrite with field_masks. reflexivity.
Qed.

(** The sample structure on the idle device: 0xD4 gets
    0x80 | 5<<4 | 3, 0xD5 gets 1<<4 | 4, 0xDF gets 1 | 2<<2 | 3<<4, 0xE0
    gets 0x10 | 5. *)
Lemma parse_fw_writes_plan_witness :
  exists m',
    parse_fw_writes sample_config idle_regmap = (0, m') /\
    trace m' =
      [Write 0xD3 2 0; Write 0xD4 0xD3 0; Write 0xD5 0x14 0; Write 0xD6 0x25 0;
       Write 0xD7 0x36 0; Write 0xDC 0x7A 0; Write 0xDD 0x8B 0; Write 0xDE 0x9C 0;
       Write 0xDF 0x39 0; Write 0xE0 0x15 0].
Proof.
  destruct (parse_fw_writes_plan sample_config idle_regmap) as (m' & Hrun & Htrace).
  - apply (idle_regmap_ok 10).
  - apply (idle_regmap_ok 10).
  - exists m'. split; [exact Hrun|]. rewrite Htrace. reflexivity.
Defined.

(** The plan has ten entries. *)
Lemma register_writes_length (a : adp5055) : length (register_writes a) = 10%nat.
Proof. reflexivity. Qed.

(** C4: when the bus fails with status [e] on the n-th write of the
    plan (n in 1..10) after n-1 writes that went through,
    [parse_fw_writes] returns [e] at once: the trace gains the n-1
    writes and the failed one and nothing after it (no later write of
    the plan, no write that undoes an earlier one), and the registers
    keep what the n-1 writes stored. *)
Theorem parse_fw_writes_abort (a : adp5055) (m : regmap) (n : nat) (e : Z) :
  adp5055_regmap m -> (1 <= n <= 10)%nat ->
  bus_ok (n - 1) m -> bus_status m (length (trace m) + (n - 1)) = e -> e <> 0 ->
  exists w m',
    register_writes a !! (n - 1)%nat = Some w /\
    parse_fw_writes a m = (e, m') /\
    trace m' = trace m ++ map written (take (n - 1) (register_writes a))
                       ++ [Write (fst w) (snd w) e] /\
    length (trace m') = (length (trace m) + n)%nat /\
    regs m' = stored (take (n - 1) (register_writes a)) (regs m).
Proof.
  intros [Hc _] Hn Hb Hs He.
  assert (Hlen := register_writes_length a).
  destruct (lookup_lt_is_Some_2 (register_writes a) (n - 1)) as [w Hw]; [lia|].
  exists w.
  assert (Htake : length (take (n - 1) (register_writes a)) = (n - 1)%nat)
    by (rewrite length_take; lia).
  assert (Hrange : Forall (fun w => 0xD1 <= fst w <= 0xE0)
                          (take (n - 1) (register_writes a) ++ [w])).
  { pose proof (register_writes_range a) as Hr.
    rewrite <- (take_drop_middle (register_writes a) (n - 1) w Hw) in Hr.
    apply Forall_app in Hr as [Hpre Hrest].
    apply Forall_cons_1 in Hrest as [Hw' _].
    apply Forall_app. split; [exact Hpre | constructor; [exact Hw' | constructor]]. }
  pose proof (write_each_fail (take (n - 1) (register_writes a))
                (drop (S (n - 1)) (register_writes a)) w e m Hc Hrange) as Hrun.
  rewrite Htake, (take_drop_middle (register_writes a) (n - 1) w Hw) in Hrun.
  specialize (Hrun Hb Hs He).
  eexists. split; [exact Hw|]. split; [rewrite parse_fw_writes_each; exact Hrun|].
  cbn [trace regs]. split; [reflexivity|]. split; [|reflexivity].
  rewrite !length_app, length_map, Htake. simpl. lia.
Qed.

Lemma faulty_regmap_ok (n : nat) (e : Z) :
  adp5055_regmap (faulty_regmap n e) /\ bus_ok (n - 1) (faulty_regmap n e).
Proof.
  split; [split; [reflexivity | intros reg; simpl; lia] |].
  intros k Hk. unfold faulty_regmap. cbn [bus_status trace length Nat.add].
  destruct (Nat.eqb_spec (S k) n); [lia | reflexivity].
Defined.

(** A failure (-EIO) on write 3, with the structure resolved from an
    empty source: two writes went through, the third failed, nothing
    follows. *)
Lemma parse_fw_writes_abort_witness :
  exists m',
    parse_fw_writes (parse_fw_properties ∅ (parse_fw_defaults adp5055_kzalloc))
                    (faulty_regmap 3 (- EIO)) = (- EIO, m') /\
    trace m' = [Write 0xD3 0 0; Write 0xD4 7 0; Write 0xD5 0 (- EIO)].
Proof.
  destruct (parse_fw_writes_abort
              (parse_fw_properties ∅ (parse_fw_defaults adp5055_kzalloc))
              (faulty_regmap 3 (- EIO)) 3 (- EIO))
    as (w & m' & Hw & Hrun & Htrace & _).
  - apply (faulty_regmap_ok 3).
  - lia.
  - apply (faulty_regmap_ok 3).
  - reflexivity.
  - discriminate.
  - exists m'. split; [exact Hrun|]. rewrite Htrace.
    vm_compute in Hw. injection Hw as <-. reflexivity.
Defined.

End WritePlanProperties.

(** ** Channel enable control *)

Section EnableProperties.

Lemma regulators_fields (i : nat) (desc : regulator_desc) :
  adp5055_regulators !! i = Some desc ->
  0 <= Z.of_nat i < 3 /\
  enable_reg desc = ADP5055_CTRL123 /\
  enable_mask desc = BIT (Z.of_nat i) /\
  vsel_reg desc = ADP5055_VID0 + Z.of_nat i /\
  vsel_mask desc = 255.
Proof.
  intros H. destruct (regulators_lookup i desc H) as [[-> ->]|[[-> ->]|[-> ->]]];
    (split; [simpl; lia | repeat split]).
Qed.

Lemma testbit_BIT (k n : Z) : 0 <= k -> Z.testbit (BIT k) n = (k =? n).
Proof. intros Hk. unfold BIT. rewrite Z.shiftl_1_l. apply Z.pow2_bits_eqb, Hk. Qed.

(** The value that a read-modify-write setting bit [k] writes. *)
Lemma set_bit_value (orig k : Z) :
  0 <= orig < 256 -> 0 <= k < 8 ->
  Z.lor (Z.land orig (Z.lnot (BIT k) mod 2 ^ 32)) (Z.land (BIT k) (BIT k))
  = Z.lor orig (2 ^ k).
Proof.
  intros Ho Hk. apply Z.bits_inj'. intros n Hn.
  rewrite !Z.lor_spec, !Z.land_spec by lia.
  rewrite Z.testbit_mod_pow2, Z.lnot_spec, testbit_BIT, Z.pow2_bits_eqb by lia.
  destruct (Z.ltb_spec n 32) as [Hlt|Hge].
  - destruct (Z.testbit orig n), (k =? n); reflexivity.
  - rewrite (testbit_above orig 8 n) by (change (2 ^ 8) with 256; lia).
    destruct (k =? n); reflexivity.
Qed.

Lemma lor_byte (x y : Z) :
  0 <= x < 256 -> 0 <= y < 256 -> Z.lor x y mod 2 ^ 8 = Z.lor x y.
Proof.
  intros Hx Hy. apply Z.bits_inj'. intros n Hn.
  rewrite Z.testbit_mod_pow2, Z.lor_spec by lia.
  destruct (Z.ltb_spec n 8) as [Hlt|Hge]; [reflexivity|].
  rewrite (testbit_above x 8 n), (testbit_above y 8 n)
    by (change (2 ^ 8) with 256; lia). reflexivity.
Qed.

Lemma pow2_byte (k : Z) : 0 <= k < 8 -> 0 <= 2 ^ k < 256.
Proof.
  intros Hk. split; [apply Z.pow_nonneg; lia|].
  change 256 with (2 ^ 8). apply Z.pow_lt_mono_r; lia.
Qed.

Lemma land_bit_set (v k : Z) : 0 <= k -> Z.testbit v k = true -> Z.land v (BIT k) <> 0.
Proof.
  intros Hk Hv Hz.
  assert (Hb : Z.testbit (Z.land v (BIT k)) k = true)
    by (rewrite Z.land_spec, testbit_BIT, Hv, Z.eqb_refl by lia; reflexivity).
  rewrite Hz, Z.bits_0 in Hb. discriminate.
Qed.

(** C8: for every channel i of 0..2 and every state of the shared
    enable register, [enable] on a bus without errors is one read and
    one write of register 0xD1 that sets bit i and leaves every other
    bit of the register, and every other register, as it was; after it
    [is_enabled] returns 1. *)
Theorem enable_sets_own_bit (i : nat) (desc : regulator_desc) (m : regmap) :
  adp5055_regulators !! i = Some desc ->
  adp5055_regmap m -> bus_ok 3 m ->
  exists m',
    enable adp5055_ops desc m = (0, m') /\
    trace m' = trace m ++ [Read 0xD1 0; Write 0xD1 (Z.lor (regs m 0xD1) (2 ^ Z.of_nat i)) 0] /\
    regs m' 0xD1 = Z.lor (regs m 0xD1) (2 ^ Z.of_nat i) /\
    Z.testbit (regs m' 0xD1) (Z.of_nat i) = true /\
    (forall j, j <> Z.of_nat i -> Z.testbit (regs m' 0xD1) j = Z.testbit (regs m 0xD1) j) /\
    (forall reg, reg <> 0xD1 -> regs m' reg = regs m reg) /\
    fst (is_enabled adp5055_ops desc m') = 1.
Proof.
  intros H [Hc Hbytes] Hb.
  destruct (regulators_fields i desc H) as (Hi & Hreg & Hmask & _).
  cbn [enable is_enabled adp5055_ops].
  unfold regulator_enable_regmap, regulator_is_enabled_regmap, enabled_of.
  rewrite Hreg, Hmask. change ADP5055_CTRL123 with 0xD1.
  assert (Hb2 : bus_ok 2 m) by (intros k Hk; apply Hb; lia).
  pose proof (regmap_update_bits_ok 0xD1 (BIT (Z.of_nat i)) (BIT (Z.of_nat i))
                m Hc ltac:(lia) Hb2) as Hrun.
  cbv zeta in Hrun.
  rewrite (set_bit_value (regs m 0xD1) (Z.of_nat i)) in Hrun by (try apply Hbytes; lia).
  rewrite lor_byte in Hrun by (try apply Hbytes; apply pow2_byte; lia).
  set (byte := Z.lor (regs m 0xD1) (2 ^ Z.of_nat i)) in *.
  set (m' := log (Write 0xD1 byte 0) (store 0xD1 byte (log (Read 0xD1 0) m))) in *.
  assert (Hregs : regs m' 0xD1 = byte) by (simpl; apply fn_lookup_insert).
  assert (Hset : Z.testbit byte (Z.of_nat i) = true)
    by (unfold byte; rewrite Z.lor_spec, Z.pow2_bits_eqb, Z.eqb_refl by lia;
        apply Bool.orb_true_r).
  exists m'. split; [exact Hrun|]. split; [simpl; rewrite <- app_assoc; reflexivity|].
  split; [exact Hregs|]. split; [rewrite Hregs; exact Hset|]. split.
  { intros j Hj. rewrite Hregs. unfold byte.
    destruct (Z.le_gt_cases 0 j) as [Hpos|Hneg].
    - rewrite Z.lor_spec, Z.pow2_bits_eqb by lia.
      replace (Z.of_nat i =? j) with false by (symmetry; apply Z.eqb_neq; lia).
      apply Bool.orb_false_r.
    - rewrite !Z.testbit_neg_r by lia. reflexivity. }
  split.
  { intros reg Hne. simpl. apply fn_lookup_insert_ne. congruence. }
  unfold bind. rewrite regmap_read_ok.
  - cbn [fst]. rewrite Hregs.
    change (0 =? 0) with true. cbv iota.
    destruct (Z.eqb_spec (Z.land byte (BIT (Z.of_nat i))) 0) as [Hz|Hnz]; [|reflexivity].
    exfalso. exact (land_bit_set byte (Z.of_nat i) ltac:(lia) Hset Hz).
  - exact Hc.
  - lia.
  - simpl. rewrite !length_app. simpl.
    replace (length (trace m) + 1 + 1)%nat with (length (trace m) + 2)%nat by lia.
    apply Hb. lia.
Qed.

Lemma running_regmap_ok (n : nat) : adp5055_regmap running_regmap /\ bus_ok n running_regmap.
Proof.
  split; [split; [reflexivity|] | intros k Hk; reflexivity].
  intros reg. simpl. destruct (reg =? ADP5055_CTRL123); lia.
Defined.

(** Channel 1 on a device with channels 0 and 2 enabled: the register
    goes from 0x05 to 0x07. *)
Lemma enable_sets_own_bit_witness :
  exists m',
    enable adp5055_ops (ADP5055_REG "DCDC2" ID1) running_regmap = (0, m') /\
    regs m' 0xD1 = 0x07 /\
    Z.testbit (regs m' 0xD1) 0 = Z.testbit (regs running_regmap 0xD1) 0 /\
    Z.testbit (regs m' 0xD1) 2 = Z.testbit (regs running_regmap 0xD1) 2 /\
    fst (is_enabled adp5055_ops (ADP5055_REG "DCDC2" ID1) m') = 1.
Proof.
  destruct (enable_sets_own_bit 1 (ADP5055_REG "DCDC2" ID1) running_regmap)
    as (m' & Hrun & _ & Hreg & _ & Hframe & _ & Hen).
  - reflexivity.
  - apply (running_regmap_ok 3).
  - apply (running_regmap_ok 3).
  - exists m'. split; [exact Hrun|]. split; [rewrite Hreg; reflexivity|].
    split; [apply Hframe; discriminate|]. split; [apply Hframe; discriminate | exact Hen].
Defined.

End EnableProperties.

(** ** Register addresses and frame *)

Section AddressProperties.

Lemma parse_fw_state (dev : device) (a : adp5055) (m : regmap) :
  snd (adp5055_parse_fw dev a m) =
  snd (regmap_write_each
         (register_writes (parse_fw_properties dev (parse_fw_defaults a))) m).
Proof.
  unfold adp5055_parse_fw, bind, ret. rewrite parse_fw_writes_each.
  destruct (regmap_write_each _ m). reflexivity.
Qed.

(** The registers of the plan, whatever the structure. *)
Lemma register_writes_regs (a : adp5055) :
  map fst (register_writes a) =
  [0xD3; 0xD4; 0xD5; 0xD6; 0xD7; 0xDC; 0xDD; 0xDE; 0xDF; 0xE0].
Proof. reflexivity. Qed.

Lemma in_device_range_intro (reg : Z) : 0xD1 <= reg <= 0xE0 -> in_device_range reg.
Proof.
  intros Hr. split; [exact Hr|].
  unfold regmap_check_range_table, regmap_reg_in_ranges, regmap_reg_in_range. simpl.
  rewrite !(proj2 (Z.leb_le _ _)) by lia. split; reflexivity.
Qed.

Lemma config_regs_in_range (reg : Z) :
  reg ∈ [0xD3; 0xD4; 0xD5; 0xD6; 0xD7; 0xDC; 0xDD; 0xDE; 0xDF; 0xE0] ->
  0xD1 <= reg <= 0xE0 /\ reg <> 0xD1 /\ reg <> 0xD8 /\ reg <> 0xD9 /\ reg <> 0xDA.
Proof.
  intros Hin. repeat (apply elem_of_cons in Hin as [->|Hin]; [lia|]).
  apply elem_of_nil in Hin. contradiction.
Qed.

(** C9: every register address that an operation of the driver hands
    to the bus lies in 0xD1..0xE0, the range of [adp5055_reg_ranges]
    that both access tables allow: the writes of [adp5055_parse_fw], and
    for each channel the accesses of enable, disable, is_enabled,
    set_voltage_sel and get_voltage_sel. *)
Theorem accesses_in_device_range (dev : device) (a : adp5055) (sel : Z) :
  only_accesses (fun e => in_device_range (access_reg e)) (adp5055_parse_fw dev a) /\
  Forall (fun desc =>
            only_accesses (fun e => in_device_range (access_reg e))
                          (enable adp5055_ops desc) /\
            only_accesses (fun e => in_device_range (access_reg e))
                          (disable adp5055_ops desc) /\
            only_accesses (fun e => in_device_range (access_reg e))
                          (is_enabled adp5055_ops desc) /\
            only_accesses (fun e => in_device_range (access_reg e))
                          (set_voltage_sel adp5055_ops desc sel) /\
            only_accesses (fun e => in_device_range (access_reg e))
                          (get_voltage_sel adp5055_ops desc))
         adp5055_regulators.
Proof.
  split.
  - intros m. rewrite parse_fw_state.
    destruct (write_each_frame
                (register_writes (parse_fw_properties dev (parse_fw_defaults a))) m)
      as (_ & _ & (evs & Ht & _ & Hall) & _).
    exists evs. split; [exact Ht|].
    eapply Forall_impl; [|exact Hall]. intros e [_ Hin].
    rewrite register_writes_regs in Hin.
    apply in_device_range_intro, config_regs_in_range, Hin.
  - assert (Hupd : forall reg mask val, 0xD1 <= reg <= 0xE0 ->
              only_accesses (fun e => in_device_range (access_reg e))
                            (regmap_update_bits reg mask val)).
    { intros reg mask val Hr.
      eapply only_accesses_impl; [|apply only_accesses_update_bits].
      intros e ->. apply in_device_range_intro, Hr. }
    assert (Hread : forall (f : Z * Z -> bus Z) reg,
              0xD1 <= reg <= 0xE0 -> (forall x m, snd (f x m) = m) ->
              only_accesses (fun e => in_device_range (access_reg e))
                            (bind (regmap_read reg 0) f)).
    { intros f reg Hr Hf m. unfold bind.
      destruct (only_accesses_read reg 0 m) as (evs & Ht & Hall).
      destruct (regmap_read reg 0 m) as [x m1]. rewrite Hf. simpl in Ht.
      exists evs. split; [exact Ht|].
      eapply Forall_impl; [|exact Hall]. intros e ->. apply in_device_range_intro, Hr. }
    repeat constructor; cbn [enable disable is_enabled set_voltage_sel get_voltage_sel adp5055_ops];
      try (apply Hupd; vm_compute; split; discriminate);
      apply Hread; try (vm_compute; split; discriminate);
      intros [status val] m; reflexivity.
Qed.

(** C10: whatever the bus answers, [adp5055_parse_fw] only makes writes,
    and only to the ten configuration registers 0xD3-0xD7, 0xDC-0xDE,
    0xDF and 0xE0; every other register keeps its value, in particular
    the shared enable register 0xD1 and the selector registers
    0xD8-0xDA, so every channel's enable bit and selector code are what
    they were. *)
Theorem parse_fw_frame (dev : device) (a : adp5055) (m : regmap) :
  (exists evs,
     trace (snd (adp5055_parse_fw dev a m)) = trace m ++ evs /\
     Forall (fun e => is_write e = true /\
                      access_reg e ∈ [0xD3; 0xD4; 0xD5; 0xD6; 0xD7;
                                      0xDC; 0xDD; 0xDE; 0xDF; 0xE0]) evs) /\
  (forall reg, reg ∈ [0xD3; 0xD4; 0xD5; 0xD6; 0xD7; 0xDC; 0xDD; 0xDE; 0xDF; 0xE0] \/
               regs (snd (adp5055_parse_fw dev a m)) reg = regs m reg) /\
  regs (snd (adp5055_parse_fw dev a m)) 0xD1 = regs m 0xD1 /\
  regs (snd (adp5055_parse_fw dev a m)) 0xD8 = regs m 0xD8 /\
  regs (snd (adp5055_parse_fw dev a m)) 0xD9 = regs m 0xD9 /\
  regs (snd (adp5055_parse_fw dev a m)) 0xDA = regs m 0xDA /\
  Forall (fun desc =>
            enabled_of desc (regs (snd (adp5055_parse_fw dev a m)) (enable_reg desc))
              = enabled_of desc (regs m (enable_reg desc)) /\
            vsel_of desc (regs (snd (adp5055_parse_fw dev a m)) (vsel_reg desc))
              = vsel_of desc (regs m (vsel_reg desc)))
         adp5055_regulators.
Proof.
  rewrite parse_fw_state.
  destruct (write_each_frame
              (register_writes (parse_fw_properties dev (parse_fw_defaults a))) m)
    as (_ & _ & (evs & Ht & _ & Hall) & Hregs).
  rewrite register_writes_regs in Hall, Hregs.
  assert (Hkeep : forall reg, (reg = 0xD1 \/ reg = 0xD8 \/ reg = 0xD9 \/ reg = 0xDA) ->
            regs (snd (regmap_write_each
                         (register_writes (parse_fw_properties dev (parse_fw_defaults a))) m))
                 reg = regs m reg).
  { intros reg Hreg. apply Hregs. intros Hin. apply config_regs_in_range in Hin. lia. }
  split; [exists evs; split; [exact Ht | exact Hall]|].
  split.
  { intros reg.
    destruct (decide (reg ∈ [0xD3; 0xD4; 0xD5; 0xD6; 0xD7; 0xDC; 0xDD; 0xDE; 0xDF; 0xE0]))
      as [Hin|Hnin]; [left; exact Hin | right; apply Hregs, Hnin]. }
  split; [apply Hkeep; lia|]. split; [apply Hkeep; lia|].
  split; [apply Hkeep; lia|]. split; [apply Hkeep; lia|].
  repeat constructor; cbn [enable_reg vsel_reg ADP5055_REG ADP5055_VID];
    rewrite Hkeep by (vm_compute; tauto); reflexivity.
Qed.

End AddressProperties.

(** * Further properties of the driver *)

Import Adp5055Probe.

(** ** The write plan on any bus *)

Section WritePlanOutcome.

Lemma write_each_outcome (ws : list (Z * Z)) (m : regmap) :
  (fst (regmap_write_each ws m) = 0 /\
   trace (snd (regmap_write_each ws m)) = trace m ++ map written ws) \/
  (fst (regmap_write_each ws m) <> 0 /\
   exists k w, ws !! k = Some w /\
     trace (snd (regmap_write_each ws m)) =
       trace m ++ map written (take k ws)
               ++ [Write (fst w) (snd w) (fst (regmap_write_each ws m))]).
Proof.
  revert m. induction ws as [|[reg val] ws IH]; intros m.
  - left. simpl. rewrite app_nil_r. split; reflexivity.
  - simpl regmap_write_each. unfold check, bind, regmap_write.
    set (status := next_status (regmap_writeable m reg) m).
    destruct (Z.eqb_spec status 0) as [Hz|Hnz].
    + set (m1 := log (Write reg val status) (store reg (val mod 2 ^ val_bits (config m)) m)).
      assert (Ht1 : trace m1 = trace m ++ [written (reg, val)])
        by (unfold written; simpl; rewrite Hz; reflexivity).
      destruct (IH m1) as [[Hret Ht]|[Hret (k & w & Hw & Ht)]].
      * left. split; [exact Hret|]. rewrite Ht, Ht1, <- app_assoc. reflexivity.
      * right. split; [exact Hret|]. exists (S k), w. split; [exact Hw|].
        rewrite Ht, Ht1, <- app_assoc. reflexivity.
    + right. simpl. split; [exact Hnz|]. exists 0%nat, (reg, val).
      split; reflexivity.
Qed.

(** X1: Whatever the register map and the bus, [parse_fw_writes] returns 0
    exactly when all ten writes were made and returned 0; any other
    return value is the status of the last write made, which is the
    first one that did not return 0, and no write follows it. *)
Theorem parse_fw_writes_outcome (a : adp5055) (m : regmap) :
  (fst (parse_fw_writes a m) = 0 /\
   trace (snd (parse_fw_writes a m)) = trace m ++ map written (register_writes a)) \/
  (fst (parse_fw_writes a m) <> 0 /\
   exists k w, register_writes a !! k = Some w /\ (k < 10)%nat /\
     trace (snd (parse_fw_writes a m)) =
       trace m ++ map written (take k (register_writes a))
               ++ [Write (fst w) (snd w) (fst (parse_fw_writes a m))]).
Proof.
  rewrite parse_fw_writes_each.
  destruct (write_each_outcome (register_writes a) m) as [H|[Hret (k & w & Hw & Ht)]].
  - left. exact H.
  - right. split; [exact Hret|]. exists k, w. split; [exact Hw|]. split; [|exact Ht].
    apply lookup_lt_Some in Hw. rewrite register_writes_length in Hw. exact Hw.
Qed.

End WritePlanOutcome.

(** ** The bytes of the write plan *)

Section WrittenBytes.

Create Rewrite HintDb field_packs.
#[local] Hint Rewrite prep_EN_MODE prep_OCP_BLANKING prep_PSM321 prep_DIS prep_DIS_DLY
  prep_EN_DLY prep_DVS_LIM_UPPER prep_DVS_LIM_LOWER prep_FAST_TRANSIENT1
  prep_FAST_TRANSIENT2 prep_FAST_TRANSIENT3 prep_DLY_PWRGD prep_PWRGD321 : field_packs.

Lemma FIELD_PREP_within (mask v : Z) :
  Z.land (FIELD_PREP mask v) mask = FIELD_PREP mask v.
Proof. unfold FIELD_PREP. rewrite <- Z.land_assoc, Z.land_diag. reflexivity. Qed.

Lemma land_lor_cover (x y mx my : Z) :
  Z.land x mx = x -> Z.land y my = y ->
  Z.land (Z.lor x y) (Z.lor mx my) = Z.lor x y.
Proof.
  intros Hx Hy. apply Z.bits_inj'. intros n Hn.
  rewrite Z.land_spec, !Z.lor_spec.
  rewrite <- Hx, <- Hy, !Z.land_spec.
  destruct (Z.testbit x n), (Z.testbit y n), (Z.testbit mx n), (Z.testbit my n); reflexivity.
Qed.

Lemma pack_byte (v w s : Z) : 0 <= pack v w s < 256.
Proof.
  unfold pack. change 255 with (Z.ones 8). rewrite Z.land_ones by lia.
  change 256 with (2 ^ 8). apply Z.mod_pos_bound. lia.
Qed.

Lemma lor_in_byte (x y : Z) : 0 <= x < 256 -> 0 <= y < 256 -> 0 <= Z.lor x y < 256.
Proof.
  intros Hx Hy. rewrite <- (lor_byte x y) by assumption.
  change 256 with (2 ^ 8). apply Z.mod_pos_bound. lia.
Qed.

Lemma register_writes_bytes (a : adp5055) :
  Forall (fun w => 0 <= snd w < 256) (register_writes a).
Proof.
  unfold register_writes. autorewrite with field_packs.
  repeat constructor; cbn [snd]; repeat apply lor_in_byte; apply pack_byte.
Qed.

(** X2: Whatever codes the structure holds, each byte of the plan has set
    bits only inside the fields of its register: bits 7-2 of CTRL_MODE1,
    bit 3 of CTRL_MODE2, bits 7 and 3 of the delay registers, bits 7-6
    of FT_CFG and bits 7-5 and 3 of PG_CFG are always written as zero,
    and every value is a byte.  ([register_writes] is what
    [parse_fw_writes] hands to [regmap_write], in order.) *)
Theorem register_writes_within_masks (a : adp5055) :
  parse_fw_writes a = regmap_write_each (register_writes a) /\
  Forall2 (fun w mask => Z.land (snd w) mask = snd w /\ 0 <= snd w < 256)
    (register_writes a)
    [ ADP5055_MASK_EN_MODE;
      Z.lor (Z.lor ADP5055_MASK_OCP_BLANKING ADP5055_MASK_PSM321) ADP5055_MASK_DIS;
      Z.lor ADP5055_MASK_DIS_DLY ADP5055_MASK_EN_DLY;
      Z.lor ADP5055_MASK_DIS_DLY ADP5055_MASK_EN_DLY;
      Z.lor ADP5055_MASK_DIS_DLY ADP5055_MASK_EN_DLY;
      Z.lor ADP5055_MASK_DVS_LIM_UPPER ADP5055_MASK_DVS_LIM_LOWER;
      Z.lor ADP5055_MASK_DVS_LIM_UPPER ADP5055_MASK_DVS_LIM_LOWER;
      Z.lor ADP5055_MASK_DVS_LIM_UPPER ADP5055_MASK_DVS_LIM_LOWER;
      Z.lor (Z.lor ADP5055_MASK_FAST_TRANSIENT1 ADP5055_MASK_FAST_TRANSIENT2)
            ADP5055_MASK_FAST_TRANSIENT3;
      Z.lor ADP5055_MASK_DLY_PWRGD ADP5055_MASK_PWRGD321 ] /\
  [ ADP5055_MASK_EN_MODE;
    Z.lor (Z.lor ADP5055_MASK_OCP_BLANKING ADP5055_MASK_PSM321) ADP5055_MASK_DIS;
    Z.lor ADP5055_MASK_DIS_DLY ADP5055_MASK_EN_DLY;
    Z.lor ADP5055_MASK_DVS_LIM_UPPER ADP5055_MASK_DVS_LIM_LOWER;
    Z.lor (Z.lor ADP5055_MASK_FAST_TRANSIENT1 ADP5055_MASK_FAST_TRANSIENT2)
          ADP5055_MASK_FAST_TRANSIENT3;
    Z.lor ADP5055_MASK_DLY_PWRGD ADP5055_MASK_PWRGD321 ]
  = [0x03; 0xF7; 0x77; 0xFF; 0x3F; 0x17].
Proof.
  split; [reflexivity|]. split; [|reflexivity].
  pose proof (register_writes_bytes a) as Hbytes. revert Hbytes.
  unfold register_writes. intros Hbytes.
  repeat (apply Forall_cons_1 in Hbytes as [? Hbytes]).
  cbn [snd] in *.
  repeat (constructor;
          [split; [cbn [snd]; repeat apply land_lor_cover; apply FIELD_PREP_within
                  | cbn [snd]; assumption] |]).
  constructor.
Qed.

Lemma unpack_lor (x y w s : Z) :
  unpack (Z.lor x y) w s = Z.lor (unpack x w s) (unpack y w s).
Proof. unfold unpack. rewrite Z.shiftr_lor, Z.land_lor_distr_l. reflexivity. Qed.

(** Unpacking a field gives the packed value cut to the field's width. *)
Lemma unpack_pack_mod (v w s : Z) :
  0 <= w -> 0 <= s -> s + w <= 8 ->
  unpack (pack v w s) w s = v mod 2 ^ w.
Proof.
  intros Hw Hs Hfit. unfold unpack, pack. apply Z.bits_inj'. intros n Hn.
  rewrite Z.land_spec, Z.shiftr_spec, Z.land_spec, Z.shiftl_spec, Z.land_spec by lia.
  change 255 with (Z.ones 8). rewrite !Z.testbit_ones, Z.testbit_mod_pow2 by lia.
  replace (n + s - s) with n by lia.
  destruct (Z.testbit v n); compare_all; simpl; lia || reflexivity.
Qed.

(** Unpacking a field finds nothing of a value packed in another one. *)
Lemma unpack_pack_other (v w s w' s' : Z) :
  0 <= w -> 0 <= s -> 0 <= w' -> 0 <= s' ->
  s' + w' <= s \/ s + w <= s' ->
  unpack (pack v w s) w' s' = 0.
Proof.
  intros Hw Hs Hw' Hs' Hdisj. unfold unpack, pack. apply Z.bits_inj'. intros n Hn.
  rewrite Z.bits_0, Z.land_spec, Z.shiftr_spec, Z.land_spec, Z.shiftl_spec, Z.land_spec by lia.
  rewrite (Z.testbit_ones w'), (Z.testbit_ones w) by lia.
  destruct (Z.testbit v (n + s' - s)), (Z.testbit 255 (n + s'));
    compare_all; simpl; lia || reflexivity.
Qed.

Ltac decode_field mask w s :=
  rewrite (FIELD_GET_unpack mask w s) by (lia || reflexivity);
  autorewrite with field_packs;
  rewrite ?unpack_lor;
  rewrite unpack_pack_mod by lia;
  rewrite ?unpack_pack_other by lia;
  rewrite ?Z.lor_0_l, ?Z.lor_0_r;
  try reflexivity.

(** X3: Each field of each byte of the plan, read back with [FIELD_GET] on
    the field's mask, is the code that was put there, cut to the width
    of the field: a code that does not fit loses its high bits, and no
    code disturbs the field of a neighbour in the same register. *)
Theorem register_writes_decode (a : adp5055) :
  exists b0 b1 b2 b3 b4 b5 b6 b7 b8 b9,
    parse_fw_writes a = regmap_write_each (register_writes a) /\
    register_writes a =
      [ (ADP5055_CTRL_MODE1, b0); (ADP5055_CTRL_MODE2, b1);
        (ADP5055_DLY0, b2); (ADP5055_DLY1, b3); (ADP5055_DLY2, b4);
        (ADP5055_DVS_LIM0, b5); (ADP5055_DVS_LIM1, b6); (ADP5055_DVS_LIM2, b7);
        (ADP5055_FT_CFG, b8); (ADP5055_PG_CFG, b9) ] /\
    FIELD_GET ADP5055_MASK_EN_MODE b0 = enable_mode_code a mod 4 /\
    FIELD_GET ADP5055_MASK_OCP_BLANKING b1 = Z.b2z (ocp_blanking a) /\
    FIELD_GET ADP5055_MASK_PSM321 b1 = power_saving_mode_ch321_code a mod 8 /\
    FIELD_GET ADP5055_MASK_DIS b1 = output_discharge_function_ch321_code a mod 8 /\
    FIELD_GET ADP5055_MASK_DIS_DLY b2 = (disable_delay_code_ch123 a !!! 0%nat) mod 8 /\
    FIELD_GET ADP5055_MASK_EN_DLY b2 = (enable_delay_code_ch123 a !!! 0%nat) mod 8 /\
    FIELD_GET ADP5055_MASK_DIS_DLY b3 = (disable_delay_code_ch123 a !!! 1%nat) mod 8 /\
    FIELD_GET ADP5055_MASK_EN_DLY b3 = (enable_delay_code_ch123 a !!! 1%nat) mod 8 /\
    FIELD_GET ADP5055_MASK_DIS_DLY b4 = (disable_delay_code_ch123 a !!! 2%nat) mod 8 /\
    FIELD_GET ADP5055_MASK_EN_DLY b4 = (enable_delay_code_ch123 a !!! 2%nat) mod 8 /\
    FIELD_GET ADP5055_MASK_DVS_LIM_UPPER b5 = (dvs_limit_upper_code_ch123 a !!! 0%nat) mod 16 /\
    FIELD_GET ADP5055_MASK_DVS_LIM_LOWER b5 = (dvs_limit_lower_code_ch123 a !!! 0%nat) mod 16 /\
    FIELD_GET ADP5055_MASK_DVS_LIM_UPPER b6 = (dvs_limit_upper_code_ch123 a !!! 1%nat) mod 16 /\
    FIELD_GET ADP5055_MASK_DVS_LIM_LOWER b6 = (dvs_limit_lower_code_ch123 a !!! 1%nat) mod 16 /\
    FIELD_GET ADP5055_MASK_DVS_LIM_UPPER b7 = (dvs_limit_upper_code_ch123 a !!! 2%nat) mod 16 /\
    FIELD_GET ADP5055_MASK_DVS_LIM_LOWER b7 = (dvs_limit_lower_code_ch123 a !!! 2%nat) mod 16 /\
    FIELD_GET ADP5055_MASK_FAST_TRANSIENT1 b8 = (fast_transient_code_ch123 a !!! 0%nat) mod 4 /\
    FIELD_GET ADP5055_MASK_FAST_TRANSIENT2 b8 = (fast_transient_code_ch123 a !!! 1%nat) mod 4 /\
    FIELD_GET ADP5055_MASK_FAST_TRANSIENT3 b8 = (fast_transient_code_ch123 a !!! 2%nat) mod 4 /\
    FIELD_GET ADP5055_MASK_DLY_PWRGD b9 = Z.b2z (delay_power_good a) /\
    FIELD_GET ADP5055_MASK_PWRGD321 b9 = mask_power_good_ch321_code a mod 8.
Proof.
  do 10 eexists. split; [reflexivity|]. split; [reflexivity|].
  split; [decode_field ADP5055_MASK_EN_MODE 2 0|].
  split; [decode_field ADP5055_MASK_OCP_BLANKING 1 7; destruct (ocp_blanking a); reflexivity|].
  split; [decode_field ADP5055_MASK_PSM321 3 4|].
  split; [decode_field ADP5055_MASK_DIS 3 0|].
  split; [decode_field ADP5055_MASK_DIS_DLY 3 4|].
  split; [decode_field ADP5055_MASK_EN_DLY 3 0|].
  split; [decode_field ADP5055_MASK_DIS_DLY 3 4|].
  split; [decode_field ADP5055_MASK_EN_DLY 3 0|].
  split; [decode_field ADP5055_MASK_DIS_DLY 3 4|].
  split; [decode_field ADP5055_MASK_EN_DLY 3 0|].
  split; [decode_field ADP5055_MASK_DVS_LIM_UPPER 4 4|].
  split; [decode_field ADP5055_MASK_DVS_LIM_LOWER 4 0|].
  split; [decode_field ADP5055_MASK_DVS_LIM_UPPER 4 4|].
  split; [decode_field ADP5055_MASK_DVS_LIM_LOWER 4 0|].
  split; [decode_field ADP5055_MASK_DVS_LIM_UPPER 4 4|].
  split; [decode_field ADP5055_MASK_DVS_LIM_LOWER 4 0|].
  split; [decode_field ADP5055_MASK_FAST_TRANSIENT1 2 0|].
  split; [decode_field ADP5055_MASK_FAST_TRANSIENT2 2 2|].
  split; [decode_field ADP5055_MASK_FAST_TRANSIENT3 2 4|].
  split; [decode_field ADP5055_MASK_DLY_PWRGD 1 4; destruct (delay_power_good a); reflexivity|].
  decode_field ADP5055_MASK_PWRGD321 3 0.
Qed.

End WrittenBytes.

(** ** The registers after a successful configuration *)

Section ReadBack.

Lemma stored_other (ws : list (Z * Z)) (f : Z -> Z) (reg : Z) :
  reg ∉ map fst ws -> stored ws f reg = f reg.
Proof.
  revert f. induction ws as [|[r v] ws IH]; intros f Hnin; [reflexivity|].
  simpl in Hnin. apply not_elem_of_cons in Hnin as [Hne Hnin].
  unfold stored in *. simpl. rewrite IH by exact Hnin.
  apply fn_lookup_insert_ne. congruence.
Qed.

Lemma stored_lookup (ws : list (Z * Z)) (f : Z -> Z) (reg val : Z) :
  NoDup (map fst ws) -> (reg, val) ∈ ws -> stored ws f reg = val mod 2 ^ 8.
Proof.
  revert f. induction ws as [|[r v] ws IH]; intros f Hnd Hin.
  - apply elem_of_nil in Hin. contradiction.
  - simpl in Hnd. pose proof (NoDup_cons_1_1 _ _ Hnd) as Hfresh.
    apply NoDup_cons_1_2 in Hnd.
    apply elem_of_cons in Hin as [Heq|Hin].
    + injection Heq as -> ->.
      change (stored ((r, v) :: ws) f) with (stored ws (<[r := v mod 2 ^ 8]> f)).
      rewrite stored_other by exact Hfresh. apply fn_lookup_insert.
    + change (stored ((r, v) :: ws) f) with (stored ws (<[r := v mod 2 ^ 8]> f)).
      apply IH; assumption.
Qed.

Lemma register_writes_NoDup (a : adp5055) : NoDup (map fst (register_writes a)).
Proof.
  rewrite register_writes_regs.
  repeat (apply NoDup_cons_2;
          [intros Hin; repeat (apply elem_of_cons in Hin as [Hin|Hin]; [discriminate Hin|]);
           apply elem_of_nil in Hin; exact Hin |]).
  apply NoDup_nil_2.
Qed.

(** X4: After [parse_fw_writes] succeeded on a bus without errors, each of
    the ten configuration registers holds the byte of the plan (each is
    written once), and every other register holds what it held. *)
Theorem parse_fw_writes_read_back (a : adp5055) (m : regmap) :
  adp5055_regmap m -> bus_ok 10 m ->
  exists m',
    parse_fw_writes a m = (0, m') /\
    NoDup (map fst (register_writes a)) /\
    (forall reg val, (reg, val) ∈ register_writes a -> regs m' reg = val) /\
    (forall reg, reg ∉ map fst (register_writes a) -> regs m' reg = regs m reg) /\
    adp5055_regmap m'.
Proof.
  intros [Hc Hbytes] Hb. rewrite parse_fw_writes_each.
  rewrite write_each_ok; [| exact Hc | apply register_writes_range | exact Hb].
  eexists. split; [reflexivity|]. cbn [regs config].
  split; [apply register_writes_NoDup|].
  assert (Hval : forall reg val, (reg, val) ∈ register_writes a ->
            stored (register_writes a) (regs m) reg = val).
  { intros reg val Hin.
    rewrite (stored_lookup _ _ reg val (register_writes_NoDup a) Hin).
    apply Z.mod_small.
    pose proof (register_writes_bytes a) as Hall.
    rewrite Forall_forall in Hall. apply (Hall (reg, val)), list_elem_of_In, Hin. }
  split; [exact Hval|]. split; [intros reg Hnin; apply stored_other, Hnin|].
  split; [exact Hc|]. intros reg. cbn [regs].
  destruct (decide (reg ∈ map fst (register_writes a))) as [Hin|Hnin].
  - apply list_elem_of_fmap in Hin as ([r v] & -> & Hin). cbn [fst].
    rewrite (Hval r v Hin).
    pose proof (register_writes_bytes a) as Hall.
    rewrite Forall_forall in Hall. apply (Hall (r, v)), list_elem_of_In, Hin.
  - rewrite stored_other by exact Hnin. apply Hbytes.
Qed.

(** The sample structure on the idle device: DLY0 (0xD5) then holds
    0x14, from which the two delay codes 1 and 4 read back. *)
Lemma parse_fw_writes_read_back_witness :
  exists m',
    parse_fw_writes sample_config idle_regmap = (0, m') /\
    regs m' 0xD5 = 0x14 /\
    FIELD_GET ADP5055_MASK_DIS_DLY (regs m' 0xD5) = 1 /\
    FIELD_GET ADP5055_MASK_EN_DLY (regs m' 0xD5) = 4 /\
    regs m' 0xD1 = 0.
Proof.
  destruct (parse_fw_writes_read_back sample_config idle_regmap)
    as (m' & Hrun & _ & Hval & Hother & _).
  - apply (idle_regmap_ok 10).
  - apply (idle_regmap_ok 10).
  - assert (Hreg : regs m' 0xD5 = 0x14).
    { apply Hval. do 2 apply list_elem_of_further. apply list_elem_of_here. }
    exists m'. split; [exact Hrun|]. split; [exact Hreg|]. rewrite Hreg.
    split; [reflexivity|]. split; [reflexivity|].
    rewrite Hother; [reflexivity|].
    intros Hin. vm_compute in Hin.
    repeat (apply elem_of_cons in Hin as [Hin|Hin]; [discriminate Hin|]).
    apply elem_of_nil in Hin. exact Hin.
Defined.

End ReadBack.

(** ** Resolving the configuration: further properties *)

Section ResolveFurther.

(** X5: [adp5055_parse_fw] does not depend on what the structure held
    before the call: every member is assigned before it is used, so no
    earlier content reaches the result or the registers. *)
Theorem parse_fw_ignores_previous_contents
    (dev : device) (a a' : adp5055) (m : regmap) :
  sized a -> sized a' ->
  adp5055_parse_fw dev a m = adp5055_parse_fw dev a' m.
Proof.
  intros Hs Hs'. unfold adp5055_parse_fw.
  rewrite (parse_fw_defaults_eq a Hs), (parse_fw_defaults_eq a' Hs'). reflexivity.
Qed.

Lemma parse_fw_ignores_previous_contents_witness :
  adp5055_parse_fw short_array_device sample_config idle_regmap =
  adp5055_parse_fw short_array_device adp5055_kzalloc idle_regmap.
Proof.
  apply parse_fw_ignores_previous_contents; repeat split.
Defined.

(** X6: Resolving the firmware node that spells a structure out gives the
    structure back: every member can be set from its property, each
    property name reaches its own member, and a flag is set exactly by
    the presence of its property. *)
Theorem parse_fw_firmware_round_trip (a a0 : adp5055) :
  sized a -> sized a0 ->
  parse_fw_properties (firmware_of a) (parse_fw_defaults a0) = a.
Proof.
  intros Hs Hs0. rewrite (parse_fw_defaults_eq a0 Hs0).
  destruct (sized_inv a Hs)
    as (d0 & d1 & d2 & e0 & e1 & e2 & u0 & u1 & u2 & l0 & l1 & l2 & f0 & f1 & f2
        & Hd & He & Hu & Hl & Hf).
  destruct a as [em ocp psm odf dd ed du dl ft dpg mpg].
  simpl in Hd, He, Hu, Hl, Hf; subst.
  destruct ocp, dpg; vm_compute; reflexivity.
Qed.

Lemma parse_fw_firmware_round_trip_witness :
  parse_fw_properties (firmware_of sample_config) (parse_fw_defaults adp5055_kzalloc)
  = sample_config.
Proof.
  apply parse_fw_firmware_round_trip; repeat split.
Defined.

(** Lines 121-141 member by member. *)
Lemma parse_fw_properties_eq (dev : device) (a : adp5055) :
  parse_fw_properties dev a =
  {| enable_mode_code :=
       snd (device_property_read_u32 dev "adi,enable-mode-code" (enable_mode_code a));
     ocp_blanking := device_property_read_bool dev "adi,ocp-blanking";
     power_saving_mode_ch321_code :=
       snd (device_property_read_u32 dev "adi,power-saving-mode-ch321-code"
              (power_saving_mode_ch321_code a));
     output_discharge_function_ch321_code :=
       snd (device_property_read_u32 dev "adi,output-discharge-function-ch321-code"
              (output_discharge_function_ch321_code a));
     disable_delay_code_ch123 :=
       snd (device_property_read_u32_array dev "adi,disable-delay-code-ch123"
              (disable_delay_code_ch123 a) ADP5055_NUM_CH);
     enable_delay_code_ch123 :=
       snd (device_property_read_u32_array dev "adi,enable-delay-code-ch123"
              (enable_delay_code_ch123 a) ADP5055_NUM_CH);
     dvs_limit_upper_code_ch123 :=
       snd (device_property_read_u32_array dev "adi,dvs-limit-upper-code-ch123"
              (dvs_limit_upper_code_ch123 a) ADP5055_NUM_CH);
     dvs_limit_lower_code_ch123 :=
       snd (device_property_read_u32_array dev "adi,dvs-limit-lower-code-ch123"
              (dvs_limit_lower_code_ch123 a) ADP5055_NUM_CH);
     fast_transient_code_ch123 :=
       snd (device_property_read_u32_array dev "adi,fast-transient-code-ch123"
              (fast_transient_code_ch123 a) ADP5055_NUM_CH);
     delay_power_good := device_property_read_bool dev "adi,delay-power-good";
     mask_power_good_ch321_code :=
       snd (device_property_read_u32 dev "adi,mask-power-good-ch321-code"
              (mask_power_good_ch321_code a)) |}.
Proof. reflexivity. Qed.

Lemma read_bool_insert_ne (dev : device) (propname n : string) (cells : list Z) :
  propname <> n ->
  device_property_read_bool (<[propname := cells]> dev) n = device_property_read_bool dev n.
Proof.
  intros Hne. unfold device_property_read_bool. rewrite lookup_insert_ne by exact Hne.
  reflexivity.
Qed.

Lemma read_u32_array_insert_ne
    (dev : device) (propname n : string) (cells val : list Z) (nval : nat) :
  propname <> n ->
  device_property_read_u32_array (<[propname := cells]> dev) n val nval
  = device_property_read_u32_array dev n val nval.
Proof.
  intros Hne. unfold device_property_read_u32_array. rewrite lookup_insert_ne by exact Hne.
  reflexivity.
Qed.

Lemma read_u32_insert_ne (dev : device) (propname n : string) (cells : list Z) (val : Z) :
  propname <> n ->
  device_property_read_u32 (<[propname := cells]> dev) n val
  = device_property_read_u32 dev n val.
Proof.
  intros Hne. unfold device_property_read_u32.
  rewrite read_u32_array_insert_ne by exact Hne. reflexivity.
Qed.

(** X7: A property whose name is not one of the eleven that the function
    reads has no effect on the resolved structure. *)
Theorem parse_fw_ignores_other_properties
    (dev : device) (propname : string) (cells : list Z) (a : adp5055) :
  propname ∉ adp5055_property_names ->
  parse_fw_properties (<[propname := cells]> dev) a = parse_fw_properties dev a.
Proof.
  intros Hnin.
  assert (Hne : forall n, n ∈ adp5055_property_names -> propname <> n)
    by (intros n Hn ->; contradiction).
  rewrite !parse_fw_properties_eq.
  rewrite !read_bool_insert_ne, !read_u32_insert_ne, !read_u32_array_insert_ne
    by (apply Hne; unfold adp5055_property_names;
        repeat first [apply list_elem_of_here | apply list_elem_of_further]).
  reflexivity.
Qed.

Lemma parse_fw_ignores_other_properties_witness :
  parse_fw_properties (<["regulator-name" := [1]]> short_array_device)
                      (parse_fw_defaults adp5055_kzalloc)
  = parse_fw_properties short_array_device (parse_fw_defaults adp5055_kzalloc).
Proof.
  apply parse_fw_ignores_other_properties.
  intros Hin. unfold adp5055_property_names in Hin.
  repeat (apply elem_of_cons in Hin as [Hin|Hin]; [discriminate Hin|]).
  apply elem_of_nil in Hin. exact Hin.
Defined.

End ResolveFurther.

(** ** The register range of the device *)

Section AccessRange.

(** X8: With the driver's configuration, a register can be written, and
    read, exactly when its address lies in 0xD1..0xE0
    ([max_register] 0xFF does not widen the range of the tables); a
    write outside that range is refused with [-EIO] whatever the bus
    would answer, and changes no register. *)
Theorem regmap_access_range (m : regmap) (reg val : Z) :
  adp5055_regmap m ->
  (regmap_writeable m reg = true <-> 0xD1 <= reg <= 0xE0) /\
  (regmap_readable m reg = true <-> 0xD1 <= reg <= 0xE0) /\
  (fst (regmap_write reg val m) = - EIO \/ 0xD1 <= reg <= 0xE0) /\
  (regs (snd (regmap_write reg val m)) = regs m \/ 0xD1 <= reg <= 0xE0).
Proof.
  intros [Hc _].
  assert (Hw : regmap_writeable m reg = true <-> 0xD1 <= reg <= 0xE0).
  { unfold regmap_writeable. rewrite Hc.
    unfold regmap_check_range_table, regmap_reg_in_ranges, regmap_reg_in_range. simpl.
    rewrite Bool.orb_false_r, !Bool.andb_true_iff, !Z.leb_le. lia. }
  assert (Hr : regmap_readable m reg = true <-> 0xD1 <= reg <= 0xE0).
  { unfold regmap_readable. rewrite Hc.
    unfold regmap_check_range_table, regmap_reg_in_ranges, regmap_reg_in_range. simpl.
    rewrite Bool.orb_false_r, !Bool.andb_true_iff, !Z.leb_le. lia. }
  split; [exact Hw|]. split; [exact Hr|].
  unfold regmap_write, next_status.
  destruct (regmap_writeable m reg) eqn:Hallowed.
  - split; right; apply Hw; reflexivity.
  - split; left; reflexivity.
Qed.

(** Register 0xE1, one past the range, on the idle device. *)
Lemma regmap_access_range_witness :
  regmap_writeable idle_regmap 0xE0 = true /\
  fst (regmap_write 0xE1 0xFF idle_regmap) = - EIO /\
  regs (snd (regmap_write 0xE1 0xFF idle_regmap)) = regs idle_regmap.
Proof.
  destruct (regmap_access_range idle_regmap 0xE0 0) as (Hw & _);
    [apply (idle_regmap_ok 0)|].
  destruct (regmap_access_range idle_regmap 0xE1 0xFF) as (_ & _ & Hret & Hregs);
    [apply (idle_regmap_ok 0)|].
  split; [apply Hw; lia|].
  split; [destruct Hret as [Hret|Hin]; [exact Hret | lia]|].
  destruct Hregs as [Hregs|Hin]; [exact Hregs | lia].
Defined.

End AccessRange.

(** ** Channel operations: further properties *)

Section ChannelOps.

(** The state after a read-modify-write that stored the byte [byte]. *)
Lemma rmw_state (reg byte : Z) (n : nat) (m : regmap) :
  adp5055_regmap m -> 0 <= byte < 256 -> bus_ok (2 + n) m ->
  adp5055_regmap (log (Write reg byte 0) (store reg byte (log (Read reg 0) m))) /\
  bus_ok n (log (Write reg byte 0) (store reg byte (log (Read reg 0) m))).
Proof.
  intros [Hc Hbytes] Hbyte Hb. split; [split; [exact Hc|]|].
  - intros r. simpl. destruct (Z.eq_dec reg r) as [->|Hne].
    + rewrite fn_lookup_insert. exact Hbyte.
    + rewrite fn_lookup_insert_ne by exact Hne. apply Hbytes.
  - intros k Hk. simpl. rewrite !length_app. simpl.
    replace (length (trace m) + 1 + 1 + k)%nat with (length (trace m) + (2 + k))%nat by lia.
    apply Hb. lia.
Qed.

Lemma ldiff_byte (x y : Z) : 0 <= x < 256 -> 0 <= Z.ldiff x y < 256.
Proof.
  intros Hx.
  assert (Hmod : Z.ldiff x y mod 2 ^ 8 = Z.ldiff x y).
  { apply Z.bits_inj'. intros n Hn.
    rewrite Z.testbit_mod_pow2, Z.ldiff_spec by lia.
    destruct (Z.ltb_spec n 8) as [Hlt|Hge]; [reflexivity|].
    rewrite (testbit_above x 8 n) by (change (2 ^ 8) with 256; lia). reflexivity. }
  rewrite <- Hmod. change 256 with (2 ^ 8). apply Z.mod_pos_bound. lia.
Qed.

(** The value that a read-modify-write clearing bit [k] writes. *)
Lemma clear_bit_value (orig k : Z) :
  0 <= orig < 256 -> 0 <= k < 8 ->
  Z.lor (Z.land orig (Z.lnot (BIT k) mod 2 ^ 32)) (Z.land 0 (BIT k))
  = Z.ldiff orig (2 ^ k).
Proof.
  intros Ho Hk. apply Z.bits_inj'. intros n Hn.
  rewrite Z.lor_spec, !Z.land_spec, Z.ldiff_spec, Z.bits_0 by lia.
  rewrite Z.testbit_mod_pow2, Z.lnot_spec, testbit_BIT, Z.pow2_bits_eqb by lia.
  destruct (Z.ltb_spec n 32) as [Hlt|Hge].
  - destruct (Z.testbit orig n), (k =? n); reflexivity.
  - rewrite (testbit_above orig 8 n) by (change (2 ^ 8) with 256; lia). reflexivity.
Qed.

Lemma enabled_of_testbit (v k : Z) :
  0 <= k -> negb (Z.land v (BIT k) =? 0) = Z.testbit v k.
Proof.
  intros Hk. destruct (Z.testbit v k) eqn:Hv.
  - destruct (Z.eqb_spec (Z.land v (BIT k)) 0) as [Hz|Hnz]; [|reflexivity].
    exfalso. exact (land_bit_set v k Hk Hv Hz).
  - assert (Hz : Z.land v (BIT k) = 0).
    { apply Z.bits_inj'. intros n Hn.
      rewrite Z.land_spec, testbit_BIT, Z.bits_0 by lia.
      destruct (Z.eqb_spec k n) as [->|Hne]; [rewrite Hv; reflexivity|].
      apply Bool.andb_false_r. }
    rewrite Hz. reflexivity.
Qed.

Lemma enable_run (i : nat) (desc : regulator_desc) (m : regmap) :
  adp5055_regulators !! i = Some desc -> adp5055_regmap m -> bus_ok 2 m ->
  enable adp5055_ops desc m =
    (0, log (Write 0xD1 (Z.lor (regs m 0xD1) (2 ^ Z.of_nat i)) 0)
          (store 0xD1 (Z.lor (regs m 0xD1) (2 ^ Z.of_nat i)) (log (Read 0xD1 0) m))).
Proof.
  intros H [Hc Hbytes] Hb.
  destruct (regulators_fields i desc H) as (Hi & Hreg & Hmask & _).
  cbn [enable adp5055_ops]. unfold regulator_enable_regmap.
  rewrite Hreg, Hmask. change ADP5055_CTRL123 with 0xD1.
  pose proof (regmap_update_bits_ok 0xD1 (BIT (Z.of_nat i)) (BIT (Z.of_nat i))
                m Hc ltac:(lia) Hb) as Hrun.
  cbv zeta in Hrun.
  rewrite (set_bit_value (regs m 0xD1) (Z.of_nat i)) in Hrun by (try apply Hbytes; lia).
  rewrite lor_byte in Hrun by (try apply Hbytes; apply pow2_byte; lia).
  exact Hrun.
Qed.

Lemma disable_run (i : nat) (desc : regulator_desc) (m : regmap) :
  adp5055_regulators !! i = Some desc -> adp5055_regmap m -> bus_ok 2 m ->
  disable adp5055_ops desc m =
    (0, log (Write 0xD1 (Z.ldiff (regs m 0xD1) (2 ^ Z.of_nat i)) 0)
          (store 0xD1 (Z.ldiff (regs m 0xD1) (2 ^ Z.of_nat i)) (log (Read 0xD1 0) m))).
Proof.
  intros H [Hc Hbytes] Hb.
  destruct (regulators_fields i desc H) as (Hi & Hreg & Hmask & _).
  cbn [disable adp5055_ops]. unfold regulator_disable_regmap.
  rewrite Hreg, Hmask. change ADP5055_CTRL123 with 0xD1.
  pose proof (regmap_update_bits_ok 0xD1 (BIT (Z.of_nat i)) 0
                m Hc ltac:(lia) Hb) as Hrun.
  cbv zeta in Hrun.
  rewrite (clear_bit_value (regs m 0xD1) (Z.of_nat i)) in Hrun by (try apply Hbytes; lia).
  rewrite (Z.mod_small (Z.ldiff _ _)) in Hrun
    by (change (2 ^ 8) with 256; apply ldiff_byte, Hbytes).
  exact Hrun.
Qed.

Lemma is_enabled_run (i : nat) (desc : regulator_desc) (m : regmap) :
  adp5055_regulators !! i = Some desc -> adp5055_regmap m -> bus_ok 1 m ->
  is_enabled adp5055_ops desc m
  = (Z.b2z (Z.testbit (regs m 0xD1) (Z.of_nat i)), log (Read 0xD1 0) m).
Proof.
  intros H [Hc Hbytes] Hb.
  destruct (regulators_fields i desc H) as (Hi & Hreg & Hmask & _).
  cbn [is_enabled adp5055_ops]. unfold regulator_is_enabled_regmap, enabled_of, bind.
  rewrite Hreg, Hmask. change ADP5055_CTRL123 with 0xD1.
  rewrite regmap_read_ok; [| exact Hc | lia |].
  - change (0 =? 0) with true. cbv iota. unfold ret.
    rewrite enabled_of_testbit by lia. reflexivity.
  - specialize (Hb 0%nat). rewrite Nat.add_0_r in Hb. apply Hb. lia.
Qed.

(** X9: For every channel i of 0..2 and every state of the shared enable
    register, [disable] on a bus without errors is one read and one
    write of register 0xD1 that clears bit i and leaves every other bit
    of the register, and every other register, as it was; after it
    [is_enabled] returns 0. *)
Theorem disable_clears_own_bit (i : nat) (desc : regulator_desc) (m : regmap) :
  adp5055_regulators !! i = Some desc ->
  adp5055_regmap m -> bus_ok 3 m ->
  exists m',
    disable adp5055_ops desc m = (0, m') /\
    trace m' = trace m ++ [Read 0xD1 0; Write 0xD1 (Z.ldiff (regs m 0xD1) (2 ^ Z.of_nat i)) 0] /\
    regs m' 0xD1 = Z.ldiff (regs m 0xD1) (2 ^ Z.of_nat i) /\
    Z.testbit (regs m' 0xD1) (Z.of_nat i) = false /\
    (forall j, j <> Z.of_nat i -> Z.testbit (regs m' 0xD1) j = Z.testbit (regs m 0xD1) j) /\
    (forall reg, reg <> 0xD1 -> regs m' reg = regs m reg) /\
    fst (is_enabled adp5055_ops desc m') = 0.
Proof.
  intros H Hm Hb.
  assert (Hb2 : bus_ok 2 m) by (intros k Hk; apply Hb; lia).
  rewrite (disable_run i desc m H Hm Hb2).
  set (byte := Z.ldiff (regs m 0xD1) (2 ^ Z.of_nat i)).
  set (m' := log (Write 0xD1 byte 0) (store 0xD1 byte (log (Read 0xD1 0) m))).
  destruct (rmw_state 0xD1 byte 1 m Hm) as [Hm' Hb'];
    [apply ldiff_byte, Hm | exact Hb |]. fold m' in Hm', Hb'.
  assert (Hregs : regs m' 0xD1 = byte) by (simpl; apply fn_lookup_insert).
  assert (Hclear : Z.testbit byte (Z.of_nat i) = false)
    by (unfold byte; rewrite Z.ldiff_spec, Z.pow2_bits_eqb, Z.eqb_refl by lia;
        apply Bool.andb_false_r).
  exists m'. split; [reflexivity|]. split; [simpl; rewrite <- app_assoc; reflexivity|].
  split; [exact Hregs|]. split; [rewrite Hregs; exact Hclear|]. split.
  { intros j Hj. rewrite Hregs. unfold byte.
    destruct (Z.le_gt_cases 0 j) as [Hpos|Hneg].
    - rewrite Z.ldiff_spec, Z.pow2_bits_eqb by lia.
      replace (Z.of_nat i =? j) with false by (symmetry; apply Z.eqb_neq; lia).
      apply Bool.andb_true_r.
    - rewrite !Z.testbit_neg_r by lia. reflexivity. }
  split.
  { intros reg Hne. simpl. apply fn_lookup_insert_ne. congruence. }
  rewrite (is_enabled_run i desc m' H Hm' Hb'). cbn [fst].
  rewrite Hregs, Hclear. reflexivity.
Qed.

(** Channel 2 on a device with channels 0 and 2 enabled: the register
    goes from 0x05 to 0x01. *)
Lemma disable_clears_own_bit_witness :
  exists m',
    disable adp5055_ops (ADP5055_REG "DCDC3" ID2) running_regmap = (0, m') /\
    regs m' 0xD1 = 0x01 /\
    Z.testbit (regs m' 0xD1) 0 = Z.testbit (regs running_regmap 0xD1) 0 /\
    fst (is_enabled adp5055_ops (ADP5055_REG "DCDC3" ID2) m') = 0.
Proof.
  destruct (disable_clears_own_bit 2 (ADP5055_REG "DCDC3" ID2) running_regmap)
    as (m' & Hrun & _ & Hreg & _ & Hframe & _ & Hen).
  - reflexivity.
  - apply (running_regmap_ok 3).
  - apply (running_regmap_ok 3).
  - exists m'. split; [exact Hrun|]. split; [rewrite Hreg; reflexivity|].
    split; [apply Hframe; discriminate | exact Hen].
Defined.

(** X10: [enable] followed by [disable] of channel i, on a bus without
    errors: the shared register ends as it began with bit i cleared, so
    a channel that was off leaves the register exactly as it was; the
    enable bits of the other channels and every other register are
    untouched throughout, and the four accesses are to 0xD1 only. *)
Theorem enable_then_disable (i : nat) (desc : regulator_desc) (m : regmap) :
  adp5055_regulators !! i = Some desc ->
  adp5055_regmap m -> bus_ok 4 m ->
  exists m1 m2,
    enable adp5055_ops desc m = (0, m1) /\
    disable adp5055_ops desc m1 = (0, m2) /\
    regs m2 0xD1 = Z.ldiff (regs m 0xD1) (2 ^ Z.of_nat i) /\
    (Z.testbit (regs m 0xD1) (Z.of_nat i) = true \/ regs m2 0xD1 = regs m 0xD1) /\
    (forall reg, reg <> 0xD1 -> regs m2 reg = regs m reg) /\
    map access_reg (drop (length (trace m)) (trace m2)) = [0xD1; 0xD1; 0xD1; 0xD1].
Proof.
  intros H Hm Hb.
  assert (Hb2 : bus_ok 2 m) by (intros k Hk; apply Hb; lia).
  rewrite (enable_run i desc m H Hm Hb2).
  destruct (regulators_fields i desc H) as (Hi & _).
  set (byte := Z.lor (regs m 0xD1) (2 ^ Z.of_nat i)).
  set (m1 := log (Write 0xD1 byte 0) (store 0xD1 byte (log (Read 0xD1 0) m))).
  assert (Hbyte : 0 <= byte < 256).
  { unfold byte. rewrite <- lor_byte by (try apply Hm; apply pow2_byte; lia).
    change 256 with (2 ^ 8). apply Z.mod_pos_bound. lia. }
  destruct (rmw_state 0xD1 byte 2 m Hm Hbyte Hb) as [Hm1 Hb1]. fold m1 in Hm1, Hb1.
  pose proof (disable_run i desc m1 H Hm1 Hb1) as Hdis.
  assert (Hregs1 : regs m1 0xD1 = byte) by (simpl; apply fn_lookup_insert).
  rewrite Hregs1 in Hdis.
  assert (Hfinal : Z.ldiff byte (2 ^ Z.of_nat i) = Z.ldiff (regs m 0xD1) (2 ^ Z.of_nat i)).
  { unfold byte. apply Z.bits_inj'. intros n Hn.
    rewrite !Z.ldiff_spec, Z.lor_spec.
    destruct (Z.testbit (regs m 0xD1) n), (Z.testbit (2 ^ Z.of_nat i) n); reflexivity. }
  rewrite Hfinal in Hdis.
  set (final := Z.ldiff (regs m 0xD1) (2 ^ Z.of_nat i)) in *.
  exists m1. eexists. split; [reflexivity|]. split; [exact Hdis|].
  split; [simpl; apply fn_lookup_insert|]. split.
  { destruct (Z.testbit (regs m 0xD1) (Z.of_nat i)) eqn:Hbit; [left; reflexivity|right].
    simpl. rewrite fn_lookup_insert. unfold final.
    apply Z.bits_inj'. intros n Hn. rewrite Z.ldiff_spec, Z.pow2_bits_eqb by lia.
    destruct (Z.eqb_spec (Z.of_nat i) n) as [<-|Hne]; [rewrite Hbit; reflexivity|].
    apply Bool.andb_true_r. }
  split.
  { intros reg Hne. simpl. rewrite !fn_lookup_insert_ne by congruence. reflexivity. }
  simpl. rewrite <- !app_assoc, drop_app_length. reflexivity.
Qed.

(** Channel 1 on a device with channels 0 and 2 enabled: the register
    is 0x05 again at the end. *)
Lemma enable_then_disable_witness :
  exists m1 m2,
    enable adp5055_ops (ADP5055_REG "DCDC2" ID1) running_regmap = (0, m1) /\
    disable adp5055_ops (ADP5055_REG "DCDC2" ID1) m1 = (0, m2) /\
    regs m2 0xD1 = regs running_regmap 0xD1.
Proof.
  destruct (enable_then_disable 1 (ADP5055_REG "DCDC2" ID1) running_regmap)
    as (m1 & m2 & Hen & Hdis & _ & Hback & _).
  - reflexivity.
  - apply (running_regmap_ok 4).
  - apply (running_regmap_ok 4).
  - exists m1, m2. split; [exact Hen|]. split; [exact Hdis|].
    destruct Hback as [Hbit|Hsame]; [discriminate Hbit | exact Hsame].
Defined.

End ChannelOps.

(** ** Voltage selection *)

Section VoltageSelection.

Lemma regs_byte_of (m : regmap) (reg : Z) : adp5055_regmap m -> 0 <= regs m reg < 256.
Proof. intros [_ Hbytes]. apply Hbytes. Qed.

(** The value that [set_voltage_sel] writes through the 8-bit mask. *)
Lemma vsel_value (orig sel : Z) :
  0 <= orig < 256 ->
  Z.lor (Z.land orig (Z.lnot 255 mod 2 ^ 32)) (Z.land (Z.shiftl sel (bf_shf 255)) 255)
  = sel mod 2 ^ 8.
Proof.
  intros Ho. change (bf_shf 255) with 0. rewrite Z.shiftl_0_r.
  change 255 with (Z.ones 8) at 2. rewrite Z.land_ones by lia.
  assert (Hz : Z.land orig (Z.lnot 255 mod 2 ^ 32) = 0).
  { apply Z.bits_inj'. intros n Hn.
    rewrite Z.land_spec, Z.testbit_mod_pow2, Z.lnot_spec, Z.bits_0 by lia.
    change 255 with (Z.ones 8). rewrite Z.testbit_ones by lia.
    destruct (Z.ltb_spec n 8) as [Hlt|Hge].
    - replace (0 <=? n) with true by (symmetry; apply Z.leb_le; lia).
      simpl. rewrite !Bool.andb_false_r. reflexivity.
    - rewrite (testbit_above orig 8 n) by (change (2 ^ 8) with 256; lia). reflexivity. }
  rewrite Hz. apply Z.lor_0_l.
Qed.

Lemma set_voltage_sel_run (i : nat) (desc : regulator_desc) (sel : Z) (m : regmap) :
  adp5055_regulators !! i = Some desc -> adp5055_regmap m -> bus_ok 2 m ->
  set_voltage_sel adp5055_ops desc sel m =
    (0, log (Write (0xD8 + Z.of_nat i) (sel mod 2 ^ 8) 0)
          (store (0xD8 + Z.of_nat i) (sel mod 2 ^ 8)
             (log (Read (0xD8 + Z.of_nat i) 0) m))).
Proof.
  intros H [Hc Hbytes] Hb.
  destruct (regulators_fields i desc H) as (Hi & _ & _ & Hreg & Hmask).
  cbn [set_voltage_sel adp5055_ops]. unfold regulator_set_voltage_sel_regmap.
  rewrite Hreg, Hmask. change ADP5055_VID0 with 0xD8.
  pose proof (regmap_update_bits_ok (0xD8 + Z.of_nat i) 255 (Z.shiftl sel (bf_shf 255))
                m Hc ltac:(lia) Hb) as Hrun.
  cbv zeta in Hrun.
  rewrite (vsel_value (regs m (0xD8 + Z.of_nat i)) sel) in Hrun by apply Hbytes.
  rewrite Z.mod_mod in Hrun by lia.
  exact Hrun.
Qed.

Lemma get_voltage_sel_run (i : nat) (desc : regulator_desc) (m : regmap) :
  adp5055_regulators !! i = Some desc -> adp5055_regmap m -> bus_ok 1 m ->
  get_voltage_sel adp5055_ops desc m
  = (regs m (0xD8 + Z.of_nat i), log (Read (0xD8 + Z.of_nat i) 0) m).
Proof.
  intros H [Hc Hbytes] Hb.
  destruct (regulators_fields i desc H) as (Hi & _ & _ & Hreg & Hmask).
  cbn [get_voltage_sel adp5055_ops]. unfold regulator_get_voltage_sel_regmap, vsel_of, bind.
  rewrite Hreg, Hmask. change ADP5055_VID0 with 0xD8.
  rewrite regmap_read_ok; [| exact Hc | lia |].
  - change (0 =? 0) with true. cbv iota. unfold ret. f_equal.
    change (bf_shf 255) with 0. rewrite Z.shiftr_0_r.
    change 255 with (Z.ones 8). rewrite Z.land_ones by lia.
    apply Z.mod_small. change (2 ^ 8) with 256. apply Hbytes.
  - specialize (Hb 0%nat). rewrite Nat.add_0_r in Hb. apply Hb. lia.
Qed.

(** X11: For every channel i and every selector code of 0..255,
    [set_voltage_sel] on a bus without errors stores the code in the
    channel's own register 0xD8+i and changes no other register (not the
    enable register, not the selector of another channel); after it
    [get_voltage_sel] returns the code. *)
Theorem set_get_voltage_sel (i : nat) (desc : regulator_desc) (sel : Z) (m : regmap) :
  adp5055_regulators !! i = Some desc ->
  0 <= sel <= 255 ->
  adp5055_regmap m -> bus_ok 3 m ->
  exists m',
    set_voltage_sel adp5055_ops desc sel m = (0, m') /\
    regs m' (0xD8 + Z.of_nat i) = sel /\
    (forall reg, reg <> 0xD8 + Z.of_nat i -> regs m' reg = regs m reg) /\
    fst (get_voltage_sel adp5055_ops desc m') = sel /\
    list_voltage adp5055_ops desc (fst (get_voltage_sel adp5055_ops desc m'))
      = 408000 + sel * 1500.
Proof.
  intros H Hsel Hm Hb.
  assert (Hb2 : bus_ok 2 m) by (intros k Hk; apply Hb; lia).
  rewrite (set_voltage_sel_run i desc sel m H Hm Hb2).
  rewrite (Z.mod_small sel) by (change (2 ^ 8) with 256; lia).
  set (reg := 0xD8 + Z.of_nat i).
  set (m' := log (Write reg sel 0) (store reg sel (log (Read reg 0) m))).
  destruct (rmw_state reg sel 1 m Hm) as [Hm' Hb']; [lia | exact Hb |].
  fold m' in Hm', Hb'.
  assert (Hregs : regs m' reg = sel) by (simpl; apply fn_lookup_insert).
  exists m'. split; [reflexivity|]. split; [exact Hregs|]. split.
  { intros r Hne. simpl. apply fn_lookup_insert_ne. congruence. }
  rewrite (get_voltage_sel_run i desc m' H Hm' Hb'). cbn [fst]. fold reg.
  rewrite Hregs. split; [reflexivity|]. apply (list_voltage_eq i desc sel H).
Qed.

(** Channel 2 set to code 100 on the device with channels 0 and 2
    enabled: 0xDA holds 100, the enable register still holds 0x05. *)
Lemma set_get_voltage_sel_witness :
  exists m',
    set_voltage_sel adp5055_ops (ADP5055_REG "DCDC3" ID2) 100 running_regmap = (0, m') /\
    regs m' 0xDA = 100 /\
    regs m' 0xD1 = 0x05 /\
    fst (get_voltage_sel adp5055_ops (ADP5055_REG "DCDC3" ID2) m') = 100.
Proof.
  destruct (set_get_voltage_sel 2 (ADP5055_REG "DCDC3" ID2) 100 running_regmap)
    as (m' & Hrun & Hreg & Hframe & Hget & _).
  - reflexivity.
  - lia.
  - apply (running_regmap_ok 3).
  - apply (running_regmap_ok 3).
  - exists m'. split; [exact Hrun|]. split; [exact Hreg|].
    split; [rewrite Hframe; [reflexivity | discriminate] | exact Hget].
Defined.

(** X12: Whatever byte a channel's selector register holds,
    [get_voltage_sel] on a bus without errors returns it as a code of
    0..255 without changing a register, and [list_voltage] of that code
    lies between [ADP5055_MIN_VOUT] and [ADP5055_MAX_VOUT]: the device
    cannot hold a selector outside the linear range. *)
Theorem get_voltage_sel_in_range (i : nat) (desc : regulator_desc) (m : regmap) :
  adp5055_regulators !! i = Some desc ->
  adp5055_regmap m -> bus_ok 1 m ->
  0 <= fst (get_voltage_sel adp5055_ops desc m) <= 255 /\
  fst (get_voltage_sel adp5055_ops desc m) = regs m (vsel_reg desc) /\
  regs (snd (get_voltage_sel adp5055_ops desc m)) = regs m /\
  ADP5055_MIN_VOUT
    <= list_voltage adp5055_ops desc (fst (get_voltage_sel adp5055_ops desc m))
    <= ADP5055_MAX_VOUT /\
  list_voltage adp5055_ops desc 0 = ADP5055_MIN_VOUT /\
  list_voltage adp5055_ops desc 255 = ADP5055_MAX_VOUT.
Proof.
  intros H Hm Hb.
  rewrite (get_voltage_sel_run i desc m H Hm Hb). cbn [fst snd].
  destruct (regulators_fields i desc H) as (Hi & _ & _ & Hreg & _).
  rewrite Hreg. change ADP5055_VID0 with 0xD8.
  pose proof (regs_byte_of m (0xD8 + Z.of_nat i) Hm) as Hbyte.
  rewrite !(list_voltage_eq i desc) by exact H.
  unfold ADP5055_MIN_VOUT, ADP5055_MAX_VOUT.
  repeat split; try reflexivity; lia.
Qed.

Lemma selected_regmap_ok (n : nat) :
  adp5055_regmap selected_regmap /\ bus_ok n selected_regmap.
Proof.
  split; [split; [reflexivity|] | intros k Hk; reflexivity].
  intros reg. simpl. destruct (reg =? ADP5055_VID1); [lia|].
  destruct (reg =? ADP5055_CTRL123); lia.
Defined.

(** Channel 1 with 0x40 in its selector register: code 64, 504000 uV. *)
Lemma get_voltage_sel_in_range_witness :
  fst (get_voltage_sel adp5055_ops (ADP5055_REG "DCDC2" ID1) selected_regmap) = 0x40 /\
  list_voltage adp5055_ops (ADP5055_REG "DCDC2" ID1) 0x40 = 504000 /\
  ADP5055_MIN_VOUT
    <= list_voltage adp5055_ops (ADP5055_REG "DCDC2" ID1)
         (fst (get_voltage_sel adp5055_ops (ADP5055_REG "DCDC2" ID1) selected_regmap))
    <= ADP5055_MAX_VOUT.
Proof.
  destruct (get_voltage_sel_in_range 1 (ADP5055_REG "DCDC2" ID1) selected_regmap)
    as (_ & Hget & _ & Hrange & _).
  - reflexivity.
  - apply (selected_regmap_ok 1).
  - apply (selected_regmap_ok 1).
  - split; [rewrite Hget; reflexivity|]. split; [reflexivity | exact Hrange].
Defined.

(** X13: A request for a voltage between [ADP5055_MIN_VOUT] and
    [ADP5055_MAX_VOUT], end to end: [map_voltage] finds a code,
    [set_voltage_sel] stores it, [get_voltage_sel] reads it back, and
    the voltage that [list_voltage] gives for it is at least the
    requested one and less than one step of 1500 uV above it. *)
Theorem voltage_request (i : nat) (desc : regulator_desc) (voltage : Z) (m : regmap) :
  adp5055_regulators !! i = Some desc ->
  ADP5055_MIN_VOUT <= voltage <= ADP5055_MAX_VOUT ->
  adp5055_regmap m -> bus_ok 3 m ->
  exists code m',
    map_voltage adp5055_ops desc voltage = Ok code /\
    set_voltage_sel adp5055_ops desc code m = (0, m') /\
    fst (get_voltage_sel adp5055_ops desc m') = code /\
    voltage <= list_voltage adp5055_ops desc code < voltage + 1500.
Proof.
  intros H Hv Hm Hb. unfold ADP5055_MIN_VOUT, ADP5055_MAX_VOUT in Hv.
  rewrite (map_voltage_eq i desc) by exact H.
  destruct (Z.ltb_spec voltage 408000); [lia|].
  destruct (Z.ltb_spec 790500 voltage); [lia|]. cbn [orb].
  pose proof (DIV_ROUND_UP_ceil (voltage - 408000)) as Hq. cbv zeta in Hq.
  assert (Hcl : clamp 0 255 (DIV_ROUND_UP (voltage - 408000) 1500 + 0)
                = DIV_ROUND_UP (voltage - 408000) 1500) by (unfold clamp; lia).
  rewrite Hcl. set (code := DIV_ROUND_UP (voltage - 408000) 1500) in *.
  assert (Hcode : 0 <= code <= 255) by lia.
  assert (Hb2 : bus_ok 2 m) by (intros k Hk; apply Hb; lia).
  exists code. eexists. split; [reflexivity|].
  rewrite (set_voltage_sel_run i desc code m H Hm Hb2).
  rewrite (Z.mod_small code) by (change (2 ^ 8) with 256; lia).
  split; [reflexivity|].
  destruct (rmw_state (0xD8 + Z.of_nat i) code 1 m Hm) as [Hm' Hb']; [lia | exact Hb |].
  rewrite (get_voltage_sel_run i desc _ H Hm' Hb'). cbn [fst].
  split; [simpl; apply fn_lookup_insert|].
  rewrite (list_voltage_eq i desc) by exact H. lia.
Qed.

(** 500000 uV on channel 0 of the idle device: code 62, 501000 uV. *)
Lemma voltage_request_witness :
  exists m',
    map_voltage adp5055_ops (ADP5055_REG "DCDC1" ID0) 500000 = Ok 62 /\
    set_voltage_sel adp5055_ops (ADP5055_REG "DCDC1" ID0) 62 idle_regmap = (0, m') /\
    fst (get_voltage_sel adp5055_ops (ADP5055_REG "DCDC1" ID0) m') = 62 /\
    list_voltage adp5055_ops (ADP5055_REG "DCDC1" ID0) 62 = 501000.
Proof.
  destruct (voltage_request 0 (ADP5055_REG "DCDC1" ID0) 500000 idle_regmap)
    as (code & m' & Hmap & Hset & Hget & _).
  - reflexivity.
  - unfold ADP5055_MIN_VOUT, ADP5055_MAX_VOUT. lia.
  - apply (idle_regmap_ok 3).
  - apply (idle_regmap_ok 3).
  - change (map_voltage adp5055_ops (ADP5055_REG "DCDC1" ID0) 500000) with (Ok 62) in Hmap.
    injection Hmap as <-.
    exists m'. split; [reflexivity|]. split; [exact Hset|]. split; [exact Hget|].
    reflexivity.
Defined.

End VoltageSelection.

(** ** The probe function *)

Section ProbeProperties.

Lemma parse_fw_ok (dev : device) (a : adp5055) (m : regmap) :
  adp5055_regmap m -> bus_ok 10 m ->
  adp5055_parse_fw dev a m =
    ((0, parse_fw_properties dev (parse_fw_defaults a)),
     {| config := config m;
        regs := stored (register_writes (parse_fw_properties dev (parse_fw_defaults a)))
                       (regs m);
        trace := trace m ++ map written
                   (register_writes (parse_fw_properties dev (parse_fw_defaults a)));
        bus_status := bus_status m |}).
Proof.
  intros [Hc _] Hb. unfold adp5055_parse_fw, bind, ret.
  rewrite parse_fw_writes_each.
  rewrite write_each_ok; [reflexivity | exact Hc | apply register_writes_range | exact Hb].
Qed.

Lemma parse_fw_fail (dev : device) (a : adp5055) (m : regmap) (n : nat) (e : Z) :
  adp5055_regmap m -> (1 <= n <= 10)%nat ->
  bus_ok (n - 1) m -> bus_status m (length (trace m) + (n - 1)) = e -> e <> 0 ->
  exists m',
    adp5055_parse_fw dev a m = ((e, parse_fw_properties dev (parse_fw_defaults a)), m') /\
    length (trace m') = (length (trace m) + n)%nat /\
    regs m' = stored (take (n - 1)
                        (register_writes (parse_fw_properties dev (parse_fw_defaults a))))
                     (regs m).
Proof.
  intros [Hc _] Hn Hb Hs He.
  set (a' := parse_fw_properties dev (parse_fw_defaults a)).
  assert (Hlen := register_writes_length a').
  destruct (lookup_lt_is_Some_2 (register_writes a') (n - 1)) as [w Hw]; [lia|].
  assert (Htake : length (take (n - 1) (register_writes a')) = (n - 1)%nat)
    by (rewrite length_take; lia).
  assert (Hrange : Forall (fun w => 0xD1 <= fst w <= 0xE0)
                          (take (n - 1) (register_writes a') ++ [w])).
  { pose proof (register_writes_range a') as Hr.
    rewrite <- (take_drop_middle (register_writes a') (n - 1) w Hw) in Hr.
    apply Forall_app in Hr as [Hpre Hrest].
    apply Forall_cons_1 in Hrest as [Hw' _].
    apply Forall_app. split; [exact Hpre | constructor; [exact Hw' | constructor]]. }
  pose proof (write_each_fail (take (n - 1) (register_writes a'))
                (drop (S (n - 1)) (register_writes a')) w e m Hc Hrange) as Hrun.
  rewrite Htake, (take_drop_middle (register_writes a') (n - 1) w Hw) in Hrun.
  specialize (Hrun Hb Hs He).
  unfold adp5055_parse_fw, bind, ret. fold a'. rewrite parse_fw_writes_each, Hrun.
  eexists. split; [reflexivity|]. cbn [trace regs]. split; [|reflexivity].
  rewrite !length_app, length_map, Htake. simpl. lia.
Qed.

Lemma register_loop_calls (client : i2c_client) (descs : list regulator_desc) :
  forall calls, register_loop client descs = (None, calls) -> calls = descs.
Proof.
  induction descs as [|desc rest IH]; intros calls Hrun; simpl in Hrun.
  - injection Hrun as <-. reflexivity.
  - destruct (devm_regulator_register client desc); [|discriminate].
    destruct (register_loop client rest) as [status calls'].
    injection Hrun as -> <-. f_equal. apply IH. reflexivity.
Qed.

Lemma register_loop_ok (client : i2c_client) (descs : list regulator_desc) :
  Forall (fun desc => exists rdev, devm_regulator_register client desc = Ptr rdev) descs ->
  register_loop client descs = (None, descs).
Proof.
  induction descs as [|desc rest IH]; intros Hall; [reflexivity|].
  apply Forall_cons_1 in Hall as [[rdev Hok] Hall].
  simpl. rewrite Hok, (IH Hall). reflexivity.
Qed.

Lemma register_loop_fail
    (client : i2c_client) (pre post : list regulator_desc) (desc : regulator_desc) (e : Z) :
  Forall (fun desc => exists rdev, devm_regulator_register client desc = Ptr rdev) pre ->
  devm_regulator_register client desc = ERR_PTR e ->
  register_loop client (pre ++ desc :: post) = (Some e, pre ++ [desc]).
Proof.
  induction pre as [|d pre IH]; intros Hall Hfail.
  - simpl. rewrite Hfail. reflexivity.
  - apply Forall_cons_1 in Hall as [[rdev Hok] Hall].
    simpl. rewrite Hok, (IH Hall Hfail). reflexivity.
Qed.

(** X14: When every kernel service succeeds and the bus has no error,
    [adp5055_probe] returns 0 after the ten configuration writes, has
    registered the three regulators in the order DCDC1, DCDC2, DCDC3,
    and has set the driver data to the structure resolved from the
    firmware node. *)
Theorem probe_success (client : i2c_client) (m : regmap) :
  of_get_regulator_init_data client = true ->
  devm_kzalloc client = true ->
  devm_regmap_init_i2c client adp5055_regmap_config = Ptr m ->
  adp5055_regmap m -> bus_ok 10 m ->
  Forall (fun desc => exists rdev, devm_regulator_register client desc = Ptr rdev)
         adp5055_regulators ->
  exists m',
    adp5055_probe client =
      {| probe_ret := 0;
         probe_regmap := Some m';
         register_calls := adp5055_regulators;
         clientdata := Some (parse_fw_properties (of_node client)
                               (parse_fw_defaults adp5055_kzalloc)) |} /\
    map name (register_calls (adp5055_probe client)) = ["DCDC1"; "DCDC2"; "DCDC3"] /\
    trace m' = trace m ++ map written
                 (register_writes (parse_fw_properties (of_node client)
                                     (parse_fw_defaults adp5055_kzalloc))).
Proof.
  intros Hinit Halloc Hmap Hm Hb Hreg.
  assert (Hrun : exists m',
            adp5055_probe client =
              {| probe_ret := 0;
                 probe_regmap := Some m';
                 register_calls := adp5055_regulators;
                 clientdata := Some (parse_fw_properties (of_node client)
                                       (parse_fw_defaults adp5055_kzalloc)) |} /\
            trace m' = trace m ++ map written
                 (register_writes (parse_fw_properties (of_node client)
                                     (parse_fw_defaults adp5055_kzalloc)))).
  { unfold adp5055_probe. rewrite Hinit, Halloc, Hmap. cbn [negb].
    rewrite (parse_fw_ok _ _ m Hm Hb). change (0 <? 0) with false. cbv iota.
    change (take ADP5055_NUM_CH adp5055_regulators) with adp5055_regulators.
    rewrite (register_loop_ok client adp5055_regulators Hreg).
    eexists. split; reflexivity. }
  destruct Hrun as (m' & Hprobe & Htrace).
  exists m'. split; [exact Hprobe|]. split; [rewrite Hprobe; reflexivity | exact Htrace].
Qed.

Lemma probe_success_witness :
  probe_ret (adp5055_probe (working_client short_array_device idle_regmap)) = 0 /\
  map name (register_calls (adp5055_probe (working_client short_array_device idle_regmap)))
    = ["DCDC1"; "DCDC2"; "DCDC3"] /\
  clientdata (adp5055_probe (working_client short_array_device idle_regmap))
    = Some (parse_fw_properties short_array_device (parse_fw_defaults adp5055_kzalloc)).
Proof.
  destruct (probe_success (working_client short_array_device idle_regmap) idle_regmap)
    as (m' & Hprobe & Hnames & _).
  - reflexivity.
  - reflexivity.
  - reflexivity.
  - apply (idle_regmap_ok 10).
  - apply (idle_regmap_ok 10).
  - repeat constructor; exists tt; reflexivity.
  - split; [rewrite Hprobe; reflexivity|].
    split; [exact Hnames | rewrite Hprobe; reflexivity].
Defined.

(** X15: When the bus fails with a negative status on the n-th configuration
    write, [adp5055_probe] returns that status: no regulator is
    registered, the driver data is not set, and the n-1 registers
    already written keep their new values. *)
Theorem probe_bus_failure (client : i2c_client) (m : regmap) (n : nat) (e : Z) :
  of_get_regulator_init_data client = true ->
  devm_kzalloc client = true ->
  devm_regmap_init_i2c client adp5055_regmap_config = Ptr m ->
  adp5055_regmap m -> (1 <= n <= 10)%nat ->
  bus_ok (n - 1) m -> bus_status m (length (trace m) + (n - 1)) = e -> e < 0 ->
  exists m',
    adp5055_probe client =
      {| probe_ret := e; probe_regmap := Some m';
         register_calls := []; clientdata := None |} /\
    length (trace m') = (length (trace m) + n)%nat /\
    regs m' = stored (take (n - 1)
                        (register_writes (parse_fw_properties (of_node client)
                                            (parse_fw_defaults adp5055_kzalloc))))
                     (regs m).
Proof.
  intros Hinit Halloc Hmap Hm Hn Hb Hs He.
  destruct (parse_fw_fail (of_node client) adp5055_kzalloc m n e Hm Hn Hb Hs ltac:(lia))
    as (m' & Hrun & Hlen & Hregs).
  exists m'. split; [|split; assumption].
  unfold adp5055_probe. rewrite Hinit, Halloc, Hmap. cbn [negb]. rewrite Hrun.
  replace (e <? 0) with true by (symmetry; apply Z.ltb_lt; exact He). reflexivity.
Qed.

Lemma probe_bus_failure_witness :
  probe_ret (adp5055_probe (working_client ∅ (faulty_regmap 3 (- EIO)))) = - EIO /\
  register_calls (adp5055_probe (working_client ∅ (faulty_regmap 3 (- EIO)))) = [] /\
  clientdata (adp5055_probe (working_client ∅ (faulty_regmap 3 (- EIO)))) = None.
Proof.
  destruct (probe_bus_failure (working_client ∅ (faulty_regmap 3 (- EIO)))
              (faulty_regmap 3 (- EIO)) 3 (- EIO))
    as (m' & Hprobe & _).
  - reflexivity.
  - reflexivity.
  - reflexivity.
  - apply (faulty_regmap_ok 3).
  - lia.
  - apply (faulty_regmap_ok 3).
  - reflexivity.
  - unfold EIO. lia.
  - rewrite Hprobe. repeat split.
Defined.



(** X17: When the registration of the k-th regulator fails with [e] after
    the earlier ones succeeded, [adp5055_probe] returns [e]: the later
    regulators are not registered, the driver data is not set, and the
    ten configuration writes made before stay in place. *)
Theorem probe_registration_failure
    (client : i2c_client) (m : regmap) (k : nat) (desc : regulator_desc) (e : Z) :
  of_get_regulator_init_data client = true ->
  devm_kzalloc client = true ->
  devm_regmap_init_i2c client adp5055_regmap_config = Ptr m ->
  adp5055_regmap m -> bus_ok 10 m ->
  adp5055_regulators !! k = Some desc ->
  Forall (fun desc => exists rdev, devm_regulator_register client desc = Ptr rdev)
         (take k adp5055_regulators) ->
  devm_regulator_register client desc = ERR_PTR e ->
  exists m',
    adp5055_probe client =
      {| probe_ret := e; probe_regmap := Some m';
         register_calls := take (S k) adp5055_regulators; clientdata := None |} /\
    trace m' = trace m ++ map written
                 (register_writes (parse_fw_properties (of_node client)
                                     (parse_fw_defaults adp5055_kzalloc))).
Proof.
  intros Hinit Halloc Hmap Hm Hb Hk Hpre Hfail.
  unfold adp5055_probe. rewrite Hinit, Halloc, Hmap. cbn [negb].
  rewrite (parse_fw_ok _ _ m Hm Hb). change (0 <? 0) with false. cbv iota.
  change (take ADP5055_NUM_CH adp5055_regulators) with adp5055_regulators.
  assert (Hloop : register_loop client adp5055_regulators
                  = (Some e, take (S k) adp5055_regulators)).
  { pose proof (register_loop_fail client (take k adp5055_regulators)
                  (drop (S k) adp5055_regulators) desc e Hpre Hfail) as Hrun.
    rewrite (take_drop_middle adp5055_regulators k desc Hk) in Hrun.
    rewrite (take_S_r adp5055_regulators k desc Hk). exact Hrun. }
  rewrite Hloop. eexists. split; reflexivity.
Qed.

(** The registration of DCDC2 fails: DCDC1 and DCDC2 were tried, DCDC3
    was not. *)
Lemma probe_registration_failure_witness :
  probe_ret (adp5055_probe (client_rejecting "DCDC2" (- EINVAL) ∅ idle_regmap)) = - EINVAL /\
  map name (register_calls
              (adp5055_probe (client_rejecting "DCDC2" (- EINVAL) ∅ idle_regmap)))
    = ["DCDC1"; "DCDC2"] /\
  clientdata (adp5055_probe (client_rejecting "DCDC2" (- EINVAL) ∅ idle_regmap)) = None.
Proof.
  destruct (probe_registration_failure
              (client_rejecting "DCDC2" (- EINVAL) ∅ idle_regmap) idle_regmap 1
              (ADP5055_REG "DCDC2" ID1) (- EINVAL))
    as (m' & Hprobe & _).
  - reflexivity.
  - reflexivity.
  - reflexivity.
  - apply (idle_regmap_ok 10).
  - apply (idle_regmap_ok 10).
  - reflexivity.
  - repeat constructor. exists tt. reflexivity.
  - reflexivity.
  - rewrite Hprobe. repeat split.
Defined.

(** X18: On every path of [adp5055_probe], the driver data is set only by a
    call that returns 0 after it resolved the structure from the
    firmware node, got a status from [adp5055_parse_fw] that is not
    negative, and registered all three regulators. *)
Theorem probe_clientdata (client : i2c_client) (a : adp5055) :
  clientdata (adp5055_probe client) = Some a ->
  probe_ret (adp5055_probe client) = 0 /\
  register_calls (adp5055_probe client) = adp5055_regulators /\
  a = parse_fw_properties (of_node client) (parse_fw_defaults adp5055_kzalloc) /\
  of_get_regulator_init_data client = true /\
  devm_kzalloc client = true /\
  exists m,
    devm_regmap_init_i2c client adp5055_regmap_config = Ptr m /\
    0 <= fst (fst (adp5055_parse_fw (of_node client) adp5055_kzalloc m)) /\
    probe_regmap (adp5055_probe client)
      = Some (snd (adp5055_parse_fw (of_node client) adp5055_kzalloc m)).
Proof.
  unfold adp5055_probe.
  destruct (of_get_regulator_init_data client); cbn [negb]; [|discriminate].
  destruct (devm_kzalloc client); cbn [negb]; [|discriminate].
  destruct (devm_regmap_init_i2c client adp5055_regmap_config) as [m|e]; [|discriminate].
  assert (Ha : snd (fst (adp5055_parse_fw (of_node client) adp5055_kzalloc m))
               = parse_fw_properties (of_node client) (parse_fw_defaults adp5055_kzalloc)).
  { unfold adp5055_parse_fw, bind, ret. destruct (parse_fw_writes _ m). reflexivity. }
  destruct (adp5055_parse_fw (of_node client) adp5055_kzalloc m)
    as [[status a'] m'] eqn:Hrun.
  cbn [fst snd] in *. subst a'.
  destruct (Z.ltb_spec status 0) as [Hneg|Hpos]; [discriminate|].
  change (take ADP5055_NUM_CH adp5055_regulators) with adp5055_regulators.
  destruct (register_loop client adp5055_regulators) as [[e|] calls] eqn:Hloop;
    [discriminate|].
  cbn [clientdata probe_ret register_calls probe_regmap]. intros Hdata.
  injection Hdata as <-.
  split; [reflexivity|]. split; [exact (register_loop_calls client _ calls Hloop)|].
  split; [reflexivity|]. split; [reflexivity|]. split; [reflexivity|].
  exists m. rewrite Hrun. split; [reflexivity|]. split; [exact Hpos | reflexivity].
Qed.

Lemma probe_clientdata_witness :
  probe_ret (adp5055_probe (working_client ∅ idle_regmap)) = 0 /\
  register_calls (adp5055_probe (working_client ∅ idle_regmap)) = adp5055_regulators.
Proof.
  destruct (probe_clientdata (working_client ∅ idle_regmap)
              (parse_fw_properties ∅ (parse_fw_defaults adp5055_kzalloc)))
    as (Hret & Hcalls & _).
  - reflexivity.
  - split; [exact Hret | exact Hcalls].
Defined.

End ProbeProperties.
